(** * Virtual C-Suite Boardroom API: a shallow embedding of [main.py]

    The development follows the source file top to bottom: the request
    models, the in-memory storage ([chat_history], [analytics_data]), the
    [EXECUTIVES] table, the helper functions ([track_analytics],
    [send_slack_notification], [get_executive_response]) and the endpoints
    ([get_executive_responses], [get_chat_history], [get_analytics]).

    Conventions of the embedding.
    - A Python [str] is a [string]; one character of the model stands for
      one code point of the Python string, so [String.length] is [len] and
      [py_take] is a prefix slice.
    - A Python [int] is a [Z].
    - A Python [dict] is an association list in insertion order
      (module [Dict]); assigning to a key that is present keeps its place.
    - The OpenAI client, the HTTP client, the clock and float arithmetic
      are collaborators of the program; they are the [Variable]s of
      section [Boardroom].  The outside world they act on is threaded
      explicitly as a value of type [world]. *)

From Stdlib Require Import List String Ascii ZArith QArith Qround Lia Bool.
From Stdlib Require Import DecimalString.
Import ListNotations.

Set Implicit Arguments.

Local Open Scope string_scope.
Local Open Scope Z_scope.

(** ** Python strings *)

Module PyStr.

(** [sep.join(parts)] *)
Fixpoint join (sep : string) (parts : list string) : string :=
  match parts with
  | [] => ""
  | [p] => p
  | p :: rest => p ++ sep ++ join sep rest
  end.

(** [s[:n]] for [n >= 0] *)
Fixpoint py_take (n : nat) (s : string) : string :=
  match n, s with
  | O, _ => ""
  | S _, EmptyString => ""
  | S m, String c r => String c (py_take m r)
  end.

(** [s[n:]] for [n >= 0] *)
Fixpoint py_drop (n : nat) (s : string) : string :=
  match n, s with
  | O, _ => s
  | S _, EmptyString => ""
  | S m, String _ r => py_drop m r
  end.

(** [len(s)] *)
Definition len (s : string) : Z := Z.of_nat (String.length s).

(** [c.isspace()] on the code points below 256: TAB, LF, VT, FF, CR,
    FS, GS, RS, US, SPACE, NEL and NBSP. *)
Definition isspace (c : ascii) : bool :=
  let n := nat_of_ascii c in
  existsb (Nat.eqb n) [9; 10; 11; 12; 13; 28; 29; 30; 31; 32; 133; 160]%nat.

Fixpoint lstrip (s : string) : string :=
  match s with
  | EmptyString => ""
  | String c r => if isspace c then lstrip r else s
  end.

Fixpoint rstrip (s : string) : string :=
  match s with
  | EmptyString => ""
  | String c r =>
      match rstrip r with
      | EmptyString => if isspace c then "" else String c ""
      | r' => String c r'
      end
  end.

(** [s.strip()] *)
Definition strip (s : string) : string := rstrip (lstrip s).

(** The line feed of a string literal. *)
Definition nl : string := String (ascii_of_nat 10) "".

(** Truth value of a string: [if s:] *)
Definition truthy (s : string) : bool :=
  match s with EmptyString => false | _ => true end.

End PyStr.

(** ** Python dictionaries with string keys *)

Module Dict.

Definition t (V : Type) : Type := list (string * V).

Definition empty {V : Type} : t V := [].

(** [d.get(k)] / [d[k]] *)
Fixpoint get {V : Type} (k : string) (d : t V) : option V :=
  match d with
  | [] => None
  | (k', v) :: r => if String.eqb k k' then Some v else get k r
  end.

(** [k in d] *)
Definition mem {V : Type} (k : string) (d : t V) : bool :=
  match get k d with Some _ => true | None => false end.

(** [d[k] = v]: an existing key keeps its position, a new key goes last. *)
Fixpoint set {V : Type} (k : string) (v : V) (d : t V) : t V :=
  match d with
  | [] => [(k, v)]
  | (k', v') :: r =>
      if String.eqb k k' then (k', v) :: r else (k', v') :: set k v r
  end.

(** [list(d)], [d.items()], [len(d)] *)
Definition keys {V : Type} (d : t V) : list string := map fst d.
Definition items {V : Type} (d : t V) : list (string * V) := d.
Definition len {V : Type} (d : t V) : Z := Z.of_nat (List.length d).

(** [bool(d)] *)
Definition truthy {V : Type} (d : t V) : bool :=
  match d with [] => false | _ => true end.

End Dict.

(** ** Python list slices *)

Module PyList.

(** [l[start:]] for any integer [start]: a negative index counts from
    the end, and both ends are clamped to the list. *)
Definition slice_from {A : Type} (start : Z) (l : list A) : list A :=
  let n := Z.of_nat (List.length l) in
  let i := if start <? 0 then Z.max 0 (n + start) else Z.min start n in
  skipn (Z.to_nat i) l.

(** [l[i]]: [None] stands for [IndexError]. *)
Definition index {A : Type} (l : list A) (i : nat) : option A := nth_error l i.

(** [max(l, key=key)]: the first element whose key is greatest; [None]
    stands for the [ValueError] on an empty sequence. *)
Fixpoint max_from {A : Type} (key : A -> Z) (best : A) (l : list A) : A :=
  match l with
  | [] => best
  | x :: r => if key x >? key best then max_from key x r else max_from key best r
  end.

Definition max_by {A : Type} (key : A -> Z) (l : list A) : option A :=
  match l with
  | [] => None
  | x :: r => Some (max_from key x r)
  end.

End PyList.

(** ** Data models *)

Module ExecutiveResponse.
(** [class ExecutiveResponse(BaseModel)] *)
Record t : Type := mk { message : string; executives : list string }.
End ExecutiveResponse.

Module Executive.
(** One value of the [EXECUTIVES] table. *)
Record t : Type := mk {
  name : string;
  title : string;
  department : string;
  personality : string;
  expertise : list string
}.
End Executive.

Module ChatEntry.
(** [chat_entry] of [get_executive_responses]: the only shape of an
    element of [chat_history]. *)
Record t : Type := mk {
  timestamp : string;
  message : string;
  executives : list string;
  responses : Dict.t string
}.

(** [msg.get('user', 'User')]: an entry has the four keys above and no
    other, so the default is what the lookup gives. *)
Definition get_user (_ : t) : string := "User".

(** [msg.get('message', '')]: the key is always present. *)
Definition get_message (e : t) : string := message e.
End ChatEntry.

Module Analytics.
(** [analytics_data]; [F] is the type of Python floats. *)
Record t (F : Type) : Type := mk {
  total_conversations : Z;
  executive_usage : Dict.t Z;
  daily_stats : Dict.t Z;
  response_times : list F
}.
Arguments mk {F}.

(** The value the module starts with. *)
Definition initial {F : Type} : t F := mk 0 Dict.empty Dict.empty [].
End Analytics.

Module Slack.
(** The dictionaries of [slack_payload]. *)
Record field : Type := mk_field {
  title : string;
  value : string;
  short : bool
}.
Record attachment : Type := mk_attachment {
  color : string;
  fields : list field;
  footer : string;
  ts : Z
}.
Record payload : Type := mk_payload {
  text : string;
  attachments : list attachment
}.
End Slack.

(** ** The executives *)

Definition executive := Executive.mk.

Definition EXECUTIVES : Dict.t Executive.t :=
  [
    ("garrett",
     executive "Garrett" "Chief Executive Officer (CEO)"
       "Executive"
       "Visionary leader focused on strategic direction, market positioning, and long-term growth. Thinks big picture and makes decisive calls."
       ["Strategic Vision"; "Leadership"; "Market Positioning"; "Stakeholder Relations"; "Corporate Strategy"]);
    ("melon",
     executive "Melon" "Chief Operating Officer (COO)"
       "Executive"
       "Operations-focused executive who optimizes processes, improves efficiency, and ensures smooth day-to-day operations."
       ["Operations Management"; "Process Optimization"; "Efficiency"; "Team Coordination"; "Operational Strategy"]);
    ("steve",
     executive "Steve" "Chief Technology Officer (CTO)"
       "Executive"
       "Technology strategist who drives innovation, scalable solutions, and digital transformation initiatives."
       ["Technology Strategy"; "Innovation"; "Scalable Architecture"; "Digital Transformation"; "Tech Leadership"]);
    ("grant",
     executive "Grant" "Chief Strategy Officer (CSO)"
       "Executive"
       "Strategic analyst who provides competitive intelligence, market analysis, and strategic planning insights."
       ["Strategic Analysis"; "Competitive Intelligence"; "Market Research"; "Business Planning"; "Growth Strategy"]);
    ("xander",
     executive "Xander" "Chief Financial Officer (CFO)"
       "Finance"
       "Financial strategist focused on ROI analysis, risk management, and sustainable financial growth."
       ["Financial Strategy"; "ROI Analysis"; "Risk Management"; "Financial Planning"; "Investment Strategy"]);
    ("sarah",
     executive "Sarah" "Bookkeeper"
       "Finance"
       "Detail-oriented financial professional ensuring accuracy in accounting, compliance, and financial records."
       ["Accounting"; "Compliance"; "Financial Records"; "Bookkeeping"; "Financial Controls"]);
    ("don",
     executive "Don" "Investment Manager"
       "Finance"
       "Portfolio management expert focused on investment strategy and maximizing returns while managing risk."
       ["Portfolio Management"; "Investment Strategy"; "Asset Allocation"; "Risk Assessment"; "Market Analysis"]);
    ("aleks",
     executive "Aleks" "Chief Marketing Officer (CMO)"
       "Marketing"
       "Marketing strategist who drives brand management, customer engagement, and market positioning."
       ["Marketing Strategy"; "Brand Management"; "Customer Engagement"; "Market Positioning"; "Growth Marketing"]);
    ("ashley",
     executive "Ashley" "Creative Director"
       "Marketing"
       "Creative visionary who develops visual identity, creative concepts, and brand aesthetics."
       ["Visual Identity"; "Creative Concepts"; "Brand Aesthetics"; "Design Strategy"; "Creative Leadership"]);
    ("gray",
     executive "Gray" "Brand Strategist"
       "Marketing"
       "Brand positioning expert who conducts market research and develops brand strategy."
       ["Brand Positioning"; "Market Research"; "Brand Strategy"; "Consumer Insights"; "Brand Development"]);
    ("yu",
     executive "Yu" "Ad Strategist"
       "Marketing"
       "Performance marketing specialist focused on campaign optimization and measurable results."
       ["Performance Marketing"; "Campaign Optimization"; "Digital Advertising"; "Analytics"; "Conversion Optimization"]);
    ("jimmy",
     executive "Jimmy" "Content Strategist"
       "Marketing"
       "Content marketing expert who develops storytelling strategies and content frameworks."
       ["Content Marketing"; "Storytelling"; "Content Strategy"; "Editorial Planning"; "Content Distribution"]);
    ("alejandra",
     executive "Alejandra" "Graphic Designer"
       "Marketing"
       "Visual design specialist who creates brand assets and maintains visual consistency."
       ["Visual Design"; "Brand Assets"; "Graphic Design"; "Visual Communication"; "Design Systems"]);
    ("kimberly",
     executive "Kimberly" "HR Director"
       "Human Resources"
       "People management expert focused on organizational development and team dynamics."
       ["People Management"; "Organizational Development"; "Team Dynamics"; "HR Strategy"; "Talent Management"]);
    ("lauren",
     executive "Lauren" "Numerologist"
       "Human Resources"
       "Analytics specialist who provides data insights, forecasting, and performance metrics."
       ["Analytics"; "Data Insights"; "Forecasting"; "Performance Metrics"; "Statistical Analysis"]);
    ("garyn",
     executive "Garyn" "Chief Real Estate Officer (CREO)"
       "Real Estate"
       "Real estate strategist focused on property management and real estate investment strategy."
       ["Real Estate Strategy"; "Property Management"; "Real Estate Investment"; "Market Analysis"; "Portfolio Optimization"]);
    ("jace",
     executive "Jace" "Creative Finance Director"
       "Real Estate"
       "Real estate financing expert who develops creative investment structures and financing solutions."
       ["Real Estate Financing"; "Investment Structures"; "Creative Financing"; "Capital Strategy"; "Deal Structuring"]);
    ("wise",
     executive "Wise" "Acquisitions Director"
       "Real Estate"
       "Property acquisition specialist focused on market analysis and investment opportunities."
       ["Property Acquisition"; "Market Analysis"; "Investment Opportunities"; "Due Diligence"; "Deal Evaluation"])
  ]%list.

(** ** Results of calls *)

(** What [client.chat.completions.create] gives back: an exception, or a
    response object whose [choices] each hold [message.content], a string
    or [None]. *)
Inductive completion : Type :=
| APIError
| ChatCompletion (choices : list (option string)).

(** What [requests.post] gives back: an exception, or a response with its
    [status_code]. *)
Inductive post_result : Type :=
| RequestException
| StatusCode (status_code : Z).

(** The exceptions (all instances of [Exception]) that the modelled code
    can raise. *)
Inductive py_exception : Type :=
| OpenAIError
| IndexError
| AttributeError.

(** How a call or a coroutine settles: [return v] or [raise e].  With
    [return_exceptions=True], [asyncio.gather] hands over exactly this. *)
Inductive outcome (A : Type) : Type :=
| Returned (v : A)
| Raised (e : py_exception).
Arguments Returned {A} v.
Arguments Raised {A} e.

(** How an endpoint answers: a body (status 200) or an [HTTPException]. *)
Inductive http_result (A : Type) : Type :=
| Ok200 (body : A)
| HTTPException (status_code : Z) (detail : string).
Arguments Ok200 {A} body.
Arguments HTTPException {A} status_code detail.

(** A Python number that is an [int] or a [float]; [F] is the type of
    floats. *)
Inductive pynum (F : Type) : Type :=
| PyInt (z : Z)
| PyFloat (f : F).
Arguments PyInt {F} z.
Arguments PyFloat {F} f.

Module ResponseBody.
(** The dictionary [get_executive_responses] returns. *)
Record t : Type := mk {
  responses : Dict.t string;
  timestamp : string;
  executives_consulted : Z
}.
End ResponseBody.

Module AnalyticsBody.
(** The dictionary [get_analytics] returns. *)
Record t (F : Type) : Type := mk {
  total_conversations : Z;
  executive_usage : Dict.t Z;
  daily_stats : Dict.t Z;
  average_response_time : pynum F;
  most_popular_executive : option string
}.
Arguments mk {F}.
End AnalyticsBody.

(** The two fixed texts of the source. *)
Definition unable_text : string :=
  "I apologize, but I'm currently unable to provide a response. Please try again shortly.".
Definition unavailable_text : string :=
  "I apologize, but I'm currently unavailable. Please try again.".

(** ** The program *)

Section Boardroom.

(** The outside world the collaborators read and change. *)
Variable world : Type.

(** [client.chat.completions.create(model="gpt-4", messages=[system,
    user], max_tokens=300, temperature=0.7)], as a function of the two
    message contents. *)
Variable chat_completions_create : string -> string -> world -> completion * world.

(** [requests.post(url, json=payload, timeout=10)] *)
Variable requests_post : string -> Slack.payload -> world -> post_result * world.

(** [os.getenv("SLACK_WEBHOOK_URL")] *)
Variable SLACK_WEBHOOK_URL : option string.

(** Python floats with [sum(samples)], [x / n] for an [int] [n], and
    [round(x, 2)]. *)
Variable pyfloat : Type.
Variable float_sum : list pyfloat -> pyfloat.
Variable float_div : pyfloat -> Z -> pyfloat.
Variable float_round2 : pyfloat -> pyfloat.

(** The readings of [datetime.now()] one request makes: the ISO text
    stored in the chat entry, the seconds elapsed since [start_time],
    and the day [track_analytics] sees. *)
Record clock : Type := mk_clock {
  now_isoformat : string;
  elapsed_seconds : pyfloat;
  today : string
}.

(** The in-memory storage: the module globals [chat_history] and
    [analytics_data]. *)
Record storage : Type := mk_storage {
  chat_history : list ChatEntry.t;
  analytics_data : Analytics.t pyfloat
}.

Definition initial_storage : storage := mk_storage [] Analytics.initial.

(** *** Helper functions *)

(** [d[k] += 1] when [k in d], [d[k] = 1] otherwise. *)
Definition bump (k : string) (d : Dict.t Z) : Dict.t Z :=
  match Dict.get k d with
  | Some n => Dict.set k (n + 1) d
  | None => Dict.set k 1 d
  end.

Definition track_analytics (executive_list : list string)
    (response_time : pyfloat) (today : string)
    (a : Analytics.t pyfloat) : Analytics.t pyfloat :=
  Analytics.mk
    (Analytics.total_conversations a + 1)
    (fold_left (fun usage exec_id => bump exec_id usage) executive_list
               (Analytics.executive_usage a))
    (bump today (Analytics.daily_stats a))
    (Analytics.response_times a ++ [response_time])%list.

(** [message[:200] + "..." if len(message) > 200 else message] *)
Definition discussion_topic (message : string) : string :=
  if PyStr.len message >? 200
  then PyStr.py_take 200 message ++ "..."
  else message.

(** [[EXECUTIVES[exec_id]["name"] for exec_id in executives if exec_id in EXECUTIVES]] *)
Fixpoint exec_names (executives : list string) : list string :=
  match executives with
  | [] => []
  | exec_id :: rest =>
      match Dict.get exec_id EXECUTIVES with
      | Some e => Executive.name e :: exec_names rest
      | None => exec_names rest
      end
  end.

(** The dictionary [slack_payload]; [now_ts] is
    [int(datetime.now().timestamp())].  The building emoji that opens
    the text is written as its code point U+1F3E2 in UTF-8. *)
Definition slack_payload (message : string) (executives : list string)
    (now_ts : Z) : Slack.payload :=
  Slack.mk_payload
    "🏢 Executive Boardroom Discussion"
    [ Slack.mk_attachment
        "good"
        [ Slack.mk_field "Executives Consulted"
            (PyStr.join ", " (exec_names executives)) true;
          Slack.mk_field "Discussion Topic" (discussion_topic message) false ]
        "Virtual C-Suite Boardroom"
        now_ts ].

Definition send_slack_notification (message : string)
    (executives : list string) (now_ts : Z) (w : world) : bool * world :=
  match SLACK_WEBHOOK_URL with
  | None => (false, w)
  | Some url =>
      if PyStr.truthy url then
        match requests_post url (slack_payload message executives now_ts) w with
        | (StatusCode status_code, w') => (status_code =? 200, w')
        | (RequestException, w') => (false, w')
        end
      else (false, w)
  end.

(** The f-string that opens [system_prompt]. *)
Definition system_prompt (e : Executive.t) : string :=
  "You are " ++ Executive.name e ++ ", " ++ Executive.title e
    ++ " at a company. " ++ PyStr.nl
  ++ "        " ++ PyStr.nl
  ++ "Your personality: " ++ Executive.personality e ++ PyStr.nl
  ++ "Your expertise: " ++ PyStr.join ", " (Executive.expertise e) ++ PyStr.nl
  ++ "Department: " ++ Executive.department e ++ PyStr.nl
  ++ PyStr.nl
  ++ "Respond as this executive would, drawing on your specific expertise and personality. "
  ++ PyStr.nl
  ++ "Keep responses focused, actionable, and in character. Aim for 2-3 paragraphs maximum."
  ++ PyStr.nl.

(** [system_prompt] as it is sent: the f-string, and after it the
    conversation context when there is one ([if context:]). *)
Definition prompt_with_context (e : Executive.t) (context : string) : string :=
  if PyStr.truthy context
  then system_prompt e ++ PyStr.nl ++ PyStr.nl ++ "Conversation context: " ++ context
  else system_prompt e.

(** The body of the [try] of [get_executive_response]:
    [response.choices[0]] raises on an empty list and [.strip()] on a
    content that is [None]. *)
Definition get_executive_response_try (executive_id message context : string)
    (w : world) : outcome string * world :=
  match Dict.get executive_id EXECUTIVES with
  | None => (Returned ("Executive " ++ executive_id ++ " not found."), w)
  | Some executive =>
      match chat_completions_create (prompt_with_context executive context) message w with
      | (APIError, w') => (Raised OpenAIError, w')
      | (ChatCompletion [], w') => (Raised IndexError, w')
      | (ChatCompletion (None :: _), w') => (Raised AttributeError, w')
      | (ChatCompletion (Some content :: _), w') =>
          (Returned (PyStr.strip content), w')
      end
  end.

(** [get_executive_response]: the [try] with its [except Exception]. *)
Definition get_executive_response (executive_id message context : string)
    (w : world) : outcome string * world :=
  match get_executive_response_try executive_id message context w with
  | (Returned text, w') => (Returned text, w')
  | (Raised _, w') => (Returned unable_text, w')
  end.

(** *** Endpoints *)

(** The [context] of [get_executive_responses] (last 3 messages). *)
Definition conversation_context (history : list ChatEntry.t) : string :=
  if Z.of_nat (List.length history) >? 0 then
    let recent_messages := PyList.slice_from (-3) history in
    PyStr.join " | "
      (map (fun msg => ChatEntry.get_user msg ++ ": " ++ ChatEntry.get_message msg)
           recent_messages)
  else "".

(** The ids of [tasks]: one coroutine [get_executive_response(executive_id,
    request.message, context)] per requested id that is in [EXECUTIVES]. *)
Definition task_ids (executives : list string) : list string :=
  filter (fun executive_id => Dict.mem executive_id EXECUTIVES) executives.

(** [await asyncio.gather] over the coroutines of [tasks], with [return_exceptions=True]: the
    coroutines never suspend (the OpenAI client is the blocking one), so
    the event loop runs each to its end in the order given. *)
Fixpoint gather (ids : list string) (message context : string) (w : world)
    : list (outcome string) * world :=
  match ids with
  | [] => ([], w)
  | executive_id :: rest =>
      let (r, w1) := get_executive_response executive_id message context w in
      let (rs, w2) := gather rest message context w1 in
      (r :: rs, w2)
  end.

(** The loop [for i, (executive_id, _) in enumerate(tasks)], from index
    [i] on; [Raised] is the [IndexError] of [results[i]]. *)
Fixpoint process_results (i : nat) (ids : list string)
    (results : list (outcome string)) (responses : Dict.t string)
    : outcome (Dict.t string) :=
  match ids with
  | [] => Returned responses
  | executive_id :: rest =>
      match PyList.index results i with
      | None => Raised IndexError
      | Some (Raised _) =>
          process_results (S i) rest results
            (Dict.set executive_id unavailable_text responses)
      | Some (Returned text) =>
          process_results (S i) rest results
            (Dict.set executive_id text responses)
      end
  end.

(** What one request leaves behind: the answer, the storage, the world,
    and the calls of [send_slack_notification] handed to
    [asyncio.create_task] (never awaited, their result never read). *)
Record run (A : Type) : Type := mk_run {
  reply : http_result A;
  stored : storage;
  world_after : world;
  background : list (string * list string)
}.

Definition get_executive_responses (request : ExecutiveResponse.t)
    (clk : clock) (st : storage) (w : world) : run ResponseBody.t :=
  let context := conversation_context (chat_history st) in
  let ids := task_ids (ExecutiveResponse.executives request) in
  let (results, w') := gather ids (ExecutiveResponse.message request) context w in
  match process_results 0 ids results Dict.empty with
  | Raised _ => mk_run (HTTPException 500 "Internal server error") st w' []
  | Returned responses =>
      let chat_entry :=
        ChatEntry.mk (now_isoformat clk)
                     (ExecutiveResponse.message request)
                     (ExecutiveResponse.executives request)
                     responses in
      let history' := (chat_history st ++ [chat_entry])%list in
      let analytics' :=
        track_analytics (ExecutiveResponse.executives request)
                        (elapsed_seconds clk) (today clk) (analytics_data st) in
      mk_run
        (Ok200 (ResponseBody.mk responses (ChatEntry.timestamp chat_entry)
                                (Dict.len responses)))
        (mk_storage history' analytics')
        w'
        [(ExecutiveResponse.message request, ExecutiveResponse.executives request)]
  end.

(** [get_chat_history(limit: int = 10)]; [None] is the query without
    [limit]. *)
Definition get_chat_history (limit : option Z) (st : storage) : list ChatEntry.t :=
  let limit := match limit with Some n => n | None => 10 end in
  PyList.slice_from (- limit) (chat_history st).

(** [round(x, 2)]: an [int] is returned as it is. *)
Definition round2 (x : pynum pyfloat) : pynum pyfloat :=
  match x with
  | PyInt z => PyInt z
  | PyFloat f => PyFloat (float_round2 f)
  end.

Definition get_analytics (st : storage) : AnalyticsBody.t pyfloat :=
  let a := analytics_data st in
  let avg_response_time :=
    match Analytics.response_times a with
    | [] => PyInt 0
    | samples =>
        PyFloat (float_div (float_sum samples) (Z.of_nat (List.length samples)))
    end in
  AnalyticsBody.mk
    (Analytics.total_conversations a)
    (Analytics.executive_usage a)
    (Analytics.daily_stats a)
    (round2 avg_response_time)
    (if Dict.truthy (Analytics.executive_usage a)
     then option_map fst (PyList.max_by snd (Dict.items (Analytics.executive_usage a)))
     else None).

End Boardroom.

(** ** The other endpoints *)

Module SlackMessage.
(** [class SlackMessage(BaseModel)]; [channel] is [Optional[str]]. *)
Record t : Type := mk { message : string; channel : option string }.

(** [SlackMessage(message=m)]: the channel takes its default. *)
Definition with_default (m : string) : t := mk m (Some "#executive-insights").
End SlackMessage.

(** The two dictionaries the integration endpoints return:
    [{"success": True, "message": m}] and [{"success": False, "error": e}]. *)
Inductive integration_result : Type :=
| Success (message : string)
| Failure (error : string).

Definition succeeded (r : integration_result) : bool :=
  match r with
  | Success _ => true
  | Failure _ => false
  end.

(** What is raised inside the integration endpoints: an [HTTPException]
    of the endpoint's own, or an exception of the HTTP or Twilio client. *)
Inductive integration_exception : Type :=
| HTTPExceptionRaised (status_code : Z) (detail : string)
| RequestsError
| TwilioError.

(** How the [try] body of an integration endpoint ends. *)
Inductive attempt (A : Type) : Type :=
| Done (v : A)
| Threw (e : integration_exception).
Arguments Done {A} v.
Arguments Threw {A} e.

Module Health.
(** The dictionary [health_check] returns, and its ["services"]. *)
Record services : Type := mk_services {
  openai : bool;
  slack : bool;
  notion : bool;
  google : bool;
  twilio : bool
}.
Record t : Type := mk {
  status : string;
  timestamp : string;
  services_up : services;
  executives_loaded : Z;
  total_conversations : Z
}.
End Health.

(** [bool(os.getenv(name))]: the variable is set and not empty. *)
Definition env_set (v : option string) : bool :=
  match v with
  | Some s => PyStr.truthy s
  | None => false
  end.

(** [str(n)] for an [int]. *)
Definition str_of_int (n : Z) : string := NilZero.string_of_int (Z.to_int n).

(** [root] *)
Definition root : list (string * string) :=
  [("message", "Virtual C-Suite Boardroom API"); ("status", "active");
   ("version", "1.0.0")].

(** [get_executives]: the value under ["executives"]. *)
Definition get_executives : Dict.t Executive.t := EXECUTIVES.

Section Integrations.

Variable world : Type.

(** The environment variables, as [os.getenv] reads them. *)
Variable OPENAI_API_KEY : option string.
Variable SLACK_WEBHOOK_URL : option string.
Variable NOTION_API_KEY : option string.
Variable GOOGLE_API_KEY : option string.
Variable TWILIO_ACCOUNT_SID : option string.
Variable TWILIO_AUTH_TOKEN : option string.

(** [requests.post(url, json={"text": text, "channel": channel}, timeout=10)] *)
Variable requests_post_message :
  string -> string * option string -> world -> post_result * world.

(** [requests.get(url, headers=headers, timeout=10)] *)
Variable requests_get :
  string -> list (string * string) -> world -> post_result * world.

(** [twilio_client.api.accounts.get()]: the [sid] of the account, or
    [None] when the call raises. *)
Variable twilio_accounts_get : string * string -> world -> option string * world.

(** [str(e)] *)
Variable str_of_exception : integration_exception -> string.

Variable pyfloat : Type.

(** [twilio_client]: a client for the two credentials when both are set
    and not empty, [None] otherwise. *)
Definition twilio_client : option (string * string) :=
  match TWILIO_ACCOUNT_SID, TWILIO_AUTH_TOKEN with
  | Some sid, Some token =>
      if PyStr.truthy sid && PyStr.truthy token then Some (sid, token) else None
  | _, _ => None
  end.

(** [health_check]; [now_isoformat] is [datetime.now().isoformat()]. *)
Definition health_check (now_isoformat : string) (st : storage pyfloat) : Health.t :=
  Health.mk "healthy" now_isoformat
    (Health.mk_services
       (env_set OPENAI_API_KEY)
       (env_set SLACK_WEBHOOK_URL)
       (env_set NOTION_API_KEY)
       (env_set GOOGLE_API_KEY)
       (match twilio_client with Some _ => true | None => false end))
    (Dict.len EXECUTIVES)
    (Analytics.total_conversations (analytics_data st)).

(** The body of the [try] of [send_slack_message]. *)
Definition send_slack_message_try (message : SlackMessage.t) (w : world)
    : attempt integration_result * world :=
  match SLACK_WEBHOOK_URL with
  | None => (Threw (HTTPExceptionRaised 400 "Slack webhook not configured"), w)
  | Some url =>
      if PyStr.truthy url then
        match requests_post_message url
                (SlackMessage.message message, SlackMessage.channel message) w with
        | (StatusCode status_code, w') =>
            if status_code =? 200
            then (Done (Success "Message sent to Slack"), w')
            else (Threw (HTTPExceptionRaised status_code "Slack API error"), w')
        | (RequestException, w') => (Threw RequestsError, w')
        end
      else (Threw (HTTPExceptionRaised 400 "Slack webhook not configured"), w)
  end.

(** [send_slack_message]: the [try] with its [except Exception], which
    also catches the [HTTPException]s raised in the body. *)
Definition send_slack_message (message : SlackMessage.t) (w : world)
    : http_result integration_result * world :=
  match send_slack_message_try message w with
  | (Done body, w') => (Ok200 body, w')
  | (Threw e, w') => (HTTPException 500 (str_of_exception e), w')
  end.

(** The text [test_slack] sends (it opens with the test tube emoji,
    U+1F9EA). *)
Definition test_message : SlackMessage.t :=
  SlackMessage.with_default
    "🧪 Virtual C-Suite Boardroom - Connection Test Successful!".

Definition test_slack (w : world) : integration_result * world :=
  match send_slack_message test_message w with
  | (Ok200 result, w') => (result, w')
  | (HTTPException status_code detail, w') =>
      (Failure (str_of_exception (HTTPExceptionRaised status_code detail)), w')
  end.

Definition test_notion (w : world) : integration_result * world :=
  match NOTION_API_KEY with
  | None => (Failure "Notion API key not configured", w)
  | Some key =>
      if PyStr.truthy key then
        let headers :=
          [("Authorization", "Bearer " ++ key);
           ("Notion-Version", "2022-06-28");
           ("Content-Type", "application/json")] in
        match requests_get "https://api.notion.com/v1/users/me" headers w with
        | (StatusCode status_code, w') =>
            if status_code =? 200
            then (Success "Notion connection successful", w')
            else (Failure ("Notion API error: " ++ str_of_int status_code), w')
        | (RequestException, w') => (Failure (str_of_exception RequestsError), w')
        end
      else (Failure "Notion API key not configured", w)
  end.

Definition test_google : integration_result :=
  if env_set GOOGLE_API_KEY
  then Success "Google API key configured"
  else Failure "Google API key not configured".

Definition test_twilio (w : world) : integration_result * world :=
  match twilio_client with
  | None => (Failure "Twilio not configured", w)
  | Some client =>
      match twilio_accounts_get client w with
      | (Some sid, w') => (Success ("Twilio connected: " ++ sid), w')
      | (None, w') => (Failure (str_of_exception TwilioError), w')
      end
  end.

End Integrations.

(** ** Vocabulary of the statements *)

(** The count a usage dictionary holds for a key, 0 for a key it lacks. *)
Definition count_of (k : string) (d : Dict.t Z) : Z :=
  match Dict.get k d with
  | Some n => n
  | None => 0
  end.

(** How often an id stands in a list of ids. *)
Definition occurrences (id : string) (ids : list string) : Z :=
  Z.of_nat (count_occ string_dec ids id).

(** The last [n] elements of a list, all of it when it is shorter. *)
Definition lastn {A : Type} (n : nat) (l : list A) : list A :=
  skipn (List.length l - n) l.

(** Membership of an id in a list of ids, as a boolean. *)
Definition has_id (id : string) (ids : list string) : bool :=
  existsb (String.eqb id) ids.

(** Two lists of ids hold the same ids (as sets). *)
Definition same_ids (l1 l2 : list string) : bool :=
  forallb (fun id => has_id id l2) l1 && forallb (fun id => has_id id l1) l2.

(** The text a settled coroutine stands for, if it returned. *)
Definition returned_text (r : outcome string) : option string :=
  match r with
  | Returned text => Some text
  | Raised _ => None
  end.

(** What a completion yields to [get_executive_response]: the stripped
    content of its first choice; nothing when the call raised, when there
    is no choice, or when the content is [None]. *)
Definition generated_text (c : completion) : option string :=
  match c with
  | ChatCompletion (Some content :: _) => Some (PyStr.strip content)
  | _ => None
  end.

(** The text the result loop stores for one settled coroutine. *)
Definition stored_text (r : outcome string) : string :=
  match r with
  | Returned text => text
  | Raised _ => unavailable_text
  end.

(** The result loop as a fold over the tasks paired with their results. *)
Definition store_all (ids : list string) (results : list (outcome string))
    (responses : Dict.t string) : Dict.t string :=
  fold_left (fun d p => Dict.set (fst p) (stored_text (snd p)) d)
            (combine ids results) responses.

(** Every count of a usage dictionary is positive. *)
Definition counts_positive (d : Dict.t Z) : Prop :=
  forall k n, Dict.get k d = Some n -> 0 < n.

(** The storages the program can be in: the one it starts with, and the
    one any request to [get_executive_responses] leaves behind. *)
Inductive reachable (world : Type)
    (chat_completions_create : string -> string -> world -> completion * world)
    (pyfloat : Type) : storage pyfloat -> Prop :=
| reachable_initial :
    reachable chat_completions_create (initial_storage pyfloat)
| reachable_request :
    forall (st : storage pyfloat) (request : ExecutiveResponse.t)
           (clk : clock pyfloat) (w : world),
      reachable chat_completions_create st ->
      reachable chat_completions_create
        (stored (get_executive_responses chat_completions_create request clk st w)).

(** The sum of the counts of a dictionary. *)
Definition dict_sum (d : Dict.t Z) : Z := fold_right Z.add 0 (map snd d).

(** How often an id is named over the entries of a history. *)
Definition named_in_history (id : string) (history : list ChatEntry.t) : Z :=
  fold_right Z.add 0 (map (fun e => occurrences id (ChatEntry.executives e)) history).

(** The ids of a list in the order of their first occurrence, each once. *)
Fixpoint first_occurrences (ids : list string) : list string :=
  match ids with
  | [] => []
  | id :: rest =>
      id :: filter (fun other => negb (String.eqb other id)) (first_occurrences rest)
  end.

(** The prompt sent for a registered id. *)
Definition prompt_for (id context : string) : string :=
  match Dict.get id EXECUTIVES with
  | Some e => prompt_with_context e context
  | None => ""
  end.

(** A completion service observed: the same service, with the two message
    contents of every call written to a log. *)
Definition logged (world : Type)
    (chat_completions_create : string -> string -> world -> completion * world)
    (system user : string) (wl : world * list (string * string))
    : completion * (world * list (string * string)) :=
  let (c, w') := chat_completions_create system user (fst wl) in
  (c, (w', (snd wl ++ [(system, user)])%list)).

(** Requests served one after the other, each with its clock readings. *)
Fixpoint serve (world : Type)
    (chat_completions_create : string -> string -> world -> completion * world)
    (pyfloat : Type)
    (calls : list (ExecutiveResponse.t * clock pyfloat))
    (st : storage pyfloat) (w : world) : storage pyfloat * world :=
  match calls with
  | [] => (st, w)
  | (request, clk) :: rest =>
      let r := get_executive_responses chat_completions_create request clk st w in
      serve chat_completions_create rest (stored r) (world_after r)
  end.

(** What a history entry records of its request. *)
Definition entry_request (e : ChatEntry.t) : string * string * list string :=
  (ChatEntry.timestamp e, ChatEntry.message e, ChatEntry.executives e).

(** The first and the last character of a string. *)
Definition first_char (s : string) : option ascii :=
  match s with
  | EmptyString => None
  | String c _ => Some c
  end.

Fixpoint last_char (s : string) : option ascii :=
  match s with
  | EmptyString => None
  | String c EmptyString => Some c
  | String _ r => last_char r
  end.

(** A character, if there is one, is no white space. *)
Definition not_space (c : option ascii) : bool :=
  match c with
  | Some a => negb (PyStr.isspace a)
  | None => true
  end.

(** The display name of a registered id. *)
Definition display_name (id : string) : string :=
  match Dict.get id EXECUTIVES with
  | Some e => Executive.name e
  | None => ""
  end.

(** ** A small world to run the program in

    The completion service of this world fails for Steve and answers
    everybody else with the user's message between blanks; its state
    counts the completions asked for.  Floats are stood for by rationals;
    no property below depends on that choice. *)

Module Demo.

Definition world : Type := nat.

Definition chat_completions_create (system user : string) (calls : world)
    : completion * world :=
  (if String.prefix "You are Steve," system
   then APIError
   else ChatCompletion [Some ("  Noted: " ++ user ++ " ")],
   S calls).

Definition pyfloat : Type := Q.
Definition float_sum (l : list Q) : Q := fold_left Qplus l (0 # 1)%Q.
Definition float_div (x : Q) (n : Z) : Q := (x / inject_Z n)%Q.
Definition float_round2 (x : Q) : Q :=
  let scaled := (x * inject_Z 100)%Q in
  let low := Qfloor scaled in
  let nearest :=
    match Qcompare (scaled - inject_Z low) (1 # 2) with
    | Lt => low
    | Gt => low + 1
    | Eq => if Z.even low then low else low + 1
    end in
  (inject_Z nearest / inject_Z 100)%Q.

Definition clk : clock pyfloat :=
  mk_clock "2024-05-01T09:30:00.000000" (3 # 2)%Q "2024-05-01".

Definition storage0 : storage pyfloat := initial_storage pyfloat.

(** Three registered executives; the second one's completion fails. *)
Definition board_request : ExecutiveResponse.t :=
  ExecutiveResponse.mk "Should we expand?" ["garrett"; "steve"; "xander"].

(** One registered executive and one id the table does not have. *)
Definition stranger_request : ExecutiveResponse.t :=
  ExecutiveResponse.mk "Hello" ["garrett"; "bogus"].

Definition orchestrate (request : ExecutiveResponse.t) (st : storage pyfloat)
    (w : world) : run world pyfloat ResponseBody.t :=
  get_executive_responses chat_completions_create request clk st w.

End Demo.

(** ** More of the small world *)

Module Scenario.

(** Two requests in a row, the second naming an id twice. *)
Definition calls : list (ExecutiveResponse.t * clock Demo.pyfloat) :=
  [(Demo.stranger_request, Demo.clk);
   (ExecutiveResponse.mk "Again" ["xander"; "xander"],
    mk_clock "2024-05-02T10:00:00.000000" (1 # 4)%Q "2024-05-02")].

Definition after_calls : storage Demo.pyfloat :=
  fst (serve Demo.chat_completions_create calls Demo.storage0 0%nat).

(** A request none of whose ids is registered. *)
Definition nobody_request : ExecutiveResponse.t :=
  ExecutiveResponse.mk "Anyone?" ["bogus"; "nobody"].

(** A storage with an empty history and analytics of its own. *)
Definition other_storage : storage Demo.pyfloat :=
  mk_storage [] (Analytics.mk 7 [("melon", 3)] [("2024-04-30", 7)] [(2 # 1)%Q]).

(** Another reading of the clock. *)
Definition later : clock Demo.pyfloat :=
  mk_clock "2024-05-03T08:15:00.000000" (5 # 2)%Q "2024-05-03".

(** A completion with white space around its content. *)
Definition padded_completion : completion := ChatCompletion [Some "  Noted: hi  "].

End Scenario.

(** * Properties *)

(** ** Strings and slices *)

Lemma py_take_drop (n : nat) (s : string) :
  s = PyStr.py_take n s ++ PyStr.py_drop n s.
Proof.
  revert s; induction n as [|n IH]; intros [|c r]; simpl; try reflexivity.
  now rewrite <- IH.
Qed.

Lemma py_take_length (n : nat) (s : string) :
  String.length (PyStr.py_take n s) = Nat.min n (String.length s).
Proof.
  revert s; induction n as [|n IH]; intros [|c r]; simpl; try reflexivity.
  now rewrite IH.
Qed.

Lemma py_drop_length (n : nat) (s : string) :
  String.length (PyStr.py_drop n s) = (String.length s - n)%nat.
Proof.
  revert s; induction n as [|n IH]; intros [|c r]; simpl; try reflexivity.
  apply IH.
Qed.

Lemma string_length_app (s t : string) :
  String.length (s ++ t) = (String.length s + String.length t)%nat.
Proof.
  induction s as [|c s IH]; simpl; [reflexivity | now rewrite IH].
Qed.

Lemma string_app_assoc (s t u : string) : (s ++ t) ++ u = s ++ t ++ u.
Proof.
  induction s as [|c s IH]; simpl; [reflexivity | now rewrite IH].
Qed.

(** Joining labelled parts is labelling the join, the label repeated
    after each separator. *)
Lemma join_labelled (label sep : string) (parts : list string) :
  parts <> [] ->
  PyStr.join sep (map (fun p => label ++ p) parts)
  = label ++ PyStr.join (sep ++ label) parts.
Proof.
  induction parts as [|p [|q rest] IH]; intros Hne.
  - congruence.
  - reflexivity.
  - change (PyStr.join sep (map (fun p => label ++ p) (p :: q :: rest)))
      with ((label ++ p) ++ sep ++ PyStr.join sep (map (fun p => label ++ p) (q :: rest))).
    change (PyStr.join (sep ++ label) (p :: q :: rest))
      with (p ++ (sep ++ label) ++ PyStr.join (sep ++ label) (q :: rest)).
    rewrite IH by discriminate.
    now rewrite !string_app_assoc.
Qed.

Lemma slice_from_negative {A : Type} (n : nat) (l : list A) :
  (0 < n)%nat -> PyList.slice_from (- Z.of_nat n) l = lastn n l.
Proof.
  intros Hn. unfold PyList.slice_from, lastn.
  destruct (Z.ltb_spec (- Z.of_nat n) 0) as [_|H]; [|lia].
  f_equal. lia.
Qed.

Lemma slice_from_zero {A : Type} (l : list A) : PyList.slice_from 0 l = l.
Proof.
  unfold PyList.slice_from. simpl.
  replace (Z.to_nat (Z.min 0 (Z.of_nat (List.length l)))) with 0%nat by lia.
  reflexivity.
Qed.

Lemma lastn_split {A : Type} (n : nat) (l : list A) :
  l = (firstn (List.length l - n) l ++ lastn n l)%list
  /\ List.length (lastn n l) = Nat.min n (List.length l).
Proof.
  unfold lastn. split.
  - symmetry; apply firstn_skipn.
  - rewrite length_skipn. lia.
Qed.

(** ** Dictionaries *)

Lemma dict_get_set_same {V : Type} (k : string) (v : V) (d : Dict.t V) :
  Dict.get k (Dict.set k v d) = Some v.
Proof.
  induction d as [|[k' v'] r IH]; simpl.
  - now rewrite String.eqb_refl.
  - destruct (String.eqb k k') eqn:E; simpl; rewrite E; [reflexivity | exact IH].
Qed.

Lemma dict_get_set_other {V : Type} (k k' : string) (v : V) (d : Dict.t V) :
  k' <> k -> Dict.get k' (Dict.set k v d) = Dict.get k' d.
Proof.
  intros Hne. induction d as [|[k0 v0] r IH]; simpl.
  - destruct (String.eqb_spec k' k); [contradiction | reflexivity].
  - destruct (String.eqb_spec k k0) as [->|Hk]; simpl.
    + destruct (String.eqb_spec k' k0); [contradiction | reflexivity].
    + destruct (String.eqb k' k0); [reflexivity | exact IH].
Qed.

Lemma dict_mem_keys {V : Type} (k : string) (d : Dict.t V) :
  Dict.mem k d = true <-> In k (Dict.keys d).
Proof.
  unfold Dict.mem. induction d as [|[k' v'] r IH]; simpl.
  - split; [discriminate | contradiction].
  - destruct (String.eqb_spec k k') as [->|Hk].
    + split; auto.
    + rewrite IH. split; [auto | intros [E|H]; [congruence | exact H]].
Qed.

Lemma dict_mem_false_keys {V : Type} (k : string) (d : Dict.t V) :
  Dict.mem k d = false <-> ~ In k (Dict.keys d).
Proof.
  rewrite <- dict_mem_keys. destruct (Dict.mem k d); split; congruence.
Qed.

Lemma dict_get_none_mem {V : Type} (k : string) (d : Dict.t V) :
  Dict.get k d = None <-> Dict.mem k d = false.
Proof.
  unfold Dict.mem. destruct (Dict.get k d); split; congruence.
Qed.

Lemma dict_keys_set {V : Type} (k : string) (v : V) (d : Dict.t V) :
  Dict.keys (Dict.set k v d)
  = if Dict.mem k d then Dict.keys d else (Dict.keys d ++ [k])%list.
Proof.
  unfold Dict.mem. induction d as [|[k' v'] r IH]; simpl.
  - reflexivity.
  - destruct (String.eqb k k') eqn:E; simpl.
    + reflexivity.
    + rewrite IH. destruct (Dict.get k r); reflexivity.
Qed.

Lemma dict_set_in_keys {V : Type} (k k' : string) (v : V) (d : Dict.t V) :
  In k' (Dict.keys (Dict.set k v d)) <-> k' = k \/ In k' (Dict.keys d).
Proof.
  rewrite dict_keys_set. destruct (Dict.mem k d) eqn:E.
  - apply dict_mem_keys in E. split; [auto | intros [->|H]; assumption].
  - rewrite in_app_iff. simpl. split.
    + intros [H|[H|[]]]; auto.
    + intros [H|H]; auto.
Qed.

Lemma dict_set_NoDup {V : Type} (k : string) (v : V) (d : Dict.t V) :
  NoDup (Dict.keys d) -> NoDup (Dict.keys (Dict.set k v d)).
Proof.
  intros Hd. rewrite dict_keys_set. destruct (Dict.mem k d) eqn:E.
  - exact Hd.
  - apply dict_mem_false_keys in E.
    apply NoDup_app; [exact Hd | repeat constructor; simpl; tauto |].
    intros x Hx [<-|[]]. contradiction.
Qed.

(** ** Analytics: [track_analytics] *)

Lemma count_of_bump_same (k : string) (d : Dict.t Z) :
  Dict.get k (bump k d) = Some (count_of k d + 1).
Proof.
  unfold bump, count_of. destruct (Dict.get k d) as [n|] eqn:E.
  - apply dict_get_set_same.
  - rewrite dict_get_set_same. reflexivity.
Qed.

Lemma get_bump_other (k k' : string) (d : Dict.t Z) :
  k' <> k -> Dict.get k' (bump k d) = Dict.get k' d.
Proof.
  intros Hne. unfold bump.
  destruct (Dict.get k d); now apply dict_get_set_other.
Qed.

Lemma bump_NoDup (k : string) (d : Dict.t Z) :
  NoDup (Dict.keys d) -> NoDup (Dict.keys (bump k d)).
Proof.
  intros Hd. unfold bump. destruct (Dict.get k d); now apply dict_set_NoDup.
Qed.

(** The loop over [executive_list]: each occurrence of an id adds one to
    its count; an id that does not occur keeps its entry, or its absence. *)
Lemma usage_after_loop (id : string) (ids : list string) (d : Dict.t Z) :
  Dict.get id (fold_left (fun usage exec_id => bump exec_id usage) ids d)
  = if occurrences id ids =? 0
    then Dict.get id d
    else Some (count_of id d + occurrences id ids).
Proof.
  unfold occurrences. revert d. induction ids as [|x r IH]; intros d; simpl.
  - reflexivity.
  - rewrite IH. destruct (string_dec x id) as [->|Hx].
    + assert (Hc : count_of id (bump id d) = count_of id d + 1)
        by (unfold count_of at 1; now rewrite count_of_bump_same).
      rewrite Hc, count_of_bump_same.
      destruct (Z.eqb_spec (Z.of_nat (count_occ string_dec r id)) 0) as [E|E];
        destruct (Z.eqb_spec (Z.of_nat (S (count_occ string_dec r id))) 0);
        try lia; f_equal; lia.
    + assert (Hg : Dict.get id (bump x d) = Dict.get id d)
        by (apply get_bump_other; congruence).
      unfold count_of. rewrite Hg. reflexivity.
Qed.

Lemma usage_loop_NoDup (ids : list string) (d : Dict.t Z) :
  NoDup (Dict.keys d) ->
  NoDup (Dict.keys (fold_left (fun usage exec_id => bump exec_id usage) ids d)).
Proof.
  revert d. induction ids as [|x r IH]; intros d Hd; simpl.
  - exact Hd.
  - apply IH. now apply bump_NoDup.
Qed.

Lemma count_of_after_loop (id : string) (ids : list string) (d : Dict.t Z) :
  count_of id (fold_left (fun usage exec_id => bump exec_id usage) ids d)
  = count_of id d + occurrences id ids.
Proof.
  unfold count_of at 1. rewrite usage_after_loop.
  destruct (Z.eqb_spec (occurrences id ids) 0) as [E|E].
  - fold (count_of id d). lia.
  - reflexivity.
Qed.

(** C4. One call of [track_analytics] adds exactly 1 to
    [total_conversations] whatever the list of ids is (the empty list
    included), adds to each id's usage count the number of times the id
    occurs in the list (an id that does not occur keeps its entry or its
    absence), adds 1 to the bucket of the day it is given and leaves the
    other days alone, and appends the response time to the samples.  Two
    calls with ["x", "y"] raise the total by 2 and the counts of "x" and of
    "y" by 2 each. *)
Theorem track_analytics_counts :
  forall (F : Type) (ids : list string) (response_time : F) (day : string)
         (a : Analytics.t F),
    let a' := track_analytics ids response_time day a in
    Analytics.total_conversations a' = Analytics.total_conversations a + 1
    /\ (forall id,
          Dict.get id (Analytics.executive_usage a')
          = if occurrences id ids =? 0
            then Dict.get id (Analytics.executive_usage a)
            else Some (count_of id (Analytics.executive_usage a) + occurrences id ids))
    /\ Dict.get day (Analytics.daily_stats a')
       = Some (count_of day (Analytics.daily_stats a) + 1)
    /\ (forall other, other <> day ->
          Dict.get other (Analytics.daily_stats a')
          = Dict.get other (Analytics.daily_stats a))
    /\ Analytics.response_times a'
       = (Analytics.response_times a ++ [response_time])%list
    /\ (forall (t1 t2 : F) (day1 day2 : string),
          let twice :=
            track_analytics ["x"; "y"] t2 day2 (track_analytics ["x"; "y"] t1 day1 a) in
          Analytics.total_conversations twice = Analytics.total_conversations a + 2
          /\ count_of "x" (Analytics.executive_usage twice)
             = count_of "x" (Analytics.executive_usage a) + 2
          /\ count_of "y" (Analytics.executive_usage twice)
             = count_of "y" (Analytics.executive_usage a) + 2).
Proof.
  intros F ids response_time day a a'. subst a'. unfold track_analytics; simpl.
  repeat split.
  - intros id. apply usage_after_loop.
  - apply count_of_bump_same.
  - intros other Hne. now apply get_bump_other.
  - lia.
  - change (bump "y" (bump "x" (bump "y" (bump "x" (Analytics.executive_usage a)))))
      with (fold_left (fun usage exec_id => bump exec_id usage) ["x"; "y"; "x"; "y"]
                      (Analytics.executive_usage a)).
    rewrite count_of_after_loop. reflexivity.
  - change (bump "y" (bump "x" (bump "y" (bump "x" (Analytics.executive_usage a)))))
      with (fold_left (fun usage exec_id => bump exec_id usage) ["x"; "y"; "x"; "y"]
                      (Analytics.executive_usage a)).
    rewrite count_of_after_loop. reflexivity.
Qed.

(** ** Notification: [send_slack_notification] *)

(** C6. The payload has one attachment with two fields, and the value of
    the second, "Discussion Topic", is the message itself when the message
    has at most 200 characters, and otherwise the first 200 characters of
    the message followed by "...": a message of 250 characters is cut to
    200 and marked, one of 50 characters passes unchanged. *)
Theorem discussion_topic_truncation :
  forall (message : string) (executives : list string) (now_ts : Z),
    exists names topic,
      Slack.attachments (slack_payload message executives now_ts)
      = [Slack.mk_attachment "good" [names; topic] "Virtual C-Suite Boardroom" now_ts]
      /\ Slack.title topic = "Discussion Topic"
      /\ ((String.length message <= 200)%nat -> Slack.value topic = message)
      /\ ((200 < String.length message)%nat ->
            exists head rest,
              message = head ++ rest
              /\ String.length head = 200%nat
              /\ rest <> ""
              /\ Slack.value topic = head ++ "...")
      /\ (String.length message = 250%nat ->
            String.length (Slack.value topic) = 203%nat
            /\ PyStr.py_take 200 (Slack.value topic) = PyStr.py_take 200 message
            /\ PyStr.py_drop 200 (Slack.value topic) = "...")
      /\ (String.length message = 50%nat -> Slack.value topic = message).
Proof.
  intros message executives now_ts. unfold slack_payload.
  eexists; eexists; split; [reflexivity |]. cbn [Slack.title Slack.value].
  unfold discussion_topic, PyStr.len.
  assert (Hcut : (200 < String.length message)%nat ->
                 exists head rest,
                   message = head ++ rest /\ String.length head = 200%nat
                   /\ rest <> "" /\ PyStr.py_take 200 message = head).
  { intros Hlen. exists (PyStr.py_take 200 message), (PyStr.py_drop 200 message).
    split; [apply py_take_drop |]. split; [rewrite py_take_length; lia |].
    split; [| reflexivity].
    intros E. apply (f_equal String.length) in E.
    rewrite py_drop_length in E. simpl in E. lia. }
  split; [reflexivity |].
  destruct (Z.gtb_spec (Z.of_nat (String.length message)) 200) as [Hgt|Hle].
  - split; [intros; lia |]. split.
    + intros Hlen. destruct (Hcut Hlen) as (head & rest & E1 & E2 & E3 & E4).
      exists head, rest. rewrite E4. auto.
    + split; [| intros; lia]. intros H250.
      destruct (Hcut ltac:(lia)) as (head & rest & E1 & E2 & E3 & E4).
      rewrite E4. clear Hcut.
      assert (Hdrop : forall n s t, String.length s = n -> PyStr.py_drop n (s ++ t) = t).
      { induction n as [|n IH]; intros [|c s] t Hs; simpl in *; try discriminate; auto. }
      assert (Htake : forall n s t, String.length s = n -> PyStr.py_take n (s ++ t) = s).
      { induction n as [|n IH]; intros [|c s] t Hs; simpl in *; try discriminate; auto.
        f_equal. apply IH. congruence. }
      split; [| split].
      * rewrite string_length_app, E2. reflexivity.
      * now apply Htake.
      * now apply Hdrop.
  - split; [reflexivity |]. split; [intros; lia |]. split; [intros; lia | reflexivity].
Qed.

(** ** Context: the last three messages *)

(** C3. The context is built from the last three entries of the history
    (from all of them when there are fewer, and it is empty for an empty
    history): each entry gives "User: " followed by its input message,
    nothing of its responses, and the pieces are joined oldest first with
    " | "; said otherwise, the messages themselves are joined by
    " | User: " behind one leading "User: ".  For four entries with the messages a, b, c, d the context is
    built from b, c, d in that order; for one entry from its message
    alone. *)
Theorem conversation_context_last_three :
  forall history : list ChatEntry.t,
    (exists older recent,
        history = (older ++ recent)%list
        /\ List.length recent = Nat.min 3 (List.length history)
        /\ conversation_context history
           = PyStr.join " | "
               (map (fun turn => "User: " ++ ChatEntry.message turn) recent)
        /\ (history <> [] ->
              conversation_context history
              = "User: " ++ PyStr.join " | User: " (map ChatEntry.message recent)))
    /\ conversation_context [] = ""
    /\ (forall t1, conversation_context [t1] = "User: " ++ ChatEntry.message t1)
    /\ (forall t1 t2 t3 t4,
          conversation_context [t1; t2; t3; t4]
          = "User: " ++ ChatEntry.message t2 ++ " | "
            ++ "User: " ++ ChatEntry.message t3 ++ " | "
            ++ "User: " ++ ChatEntry.message t4).
Proof.
  intros history. split; [| split; [reflexivity | split]].
  - exists (firstn (List.length history - 3) history), (lastn 3 history).
    destruct (lastn_split 3 history) as [Hsplit Hlen].
    split; [exact Hsplit |]. split; [exact Hlen |].
    assert (Hctx : conversation_context history
                   = PyStr.join " | "
                       (map (fun turn => "User: " ++ ChatEntry.message turn)
                            (lastn 3 history))).
    { unfold conversation_context.
      destruct history as [|t rest].
      + reflexivity.
      + replace (Z.of_nat (List.length (t :: rest)) >? 0) with true
          by (symmetry; apply Z.gtb_lt; simpl; lia).
        change (-3) with (- Z.of_nat 3).
        rewrite slice_from_negative by lia. reflexivity. }
    split; [exact Hctx |].
    intros Hne. rewrite Hctx.
    rewrite <- (map_map ChatEntry.message (fun p => "User: " ++ p)).
    apply (join_labelled "User: " " | ").
    intros Hnil. apply map_eq_nil in Hnil.
    rewrite Hnil in Hlen. destruct history; [congruence | simpl in Hlen; lia].
  - intros t1. reflexivity.
  - intros t1 t2 t3 t4. reflexivity.
Qed.

(** ** History retrieval *)

Lemma get_chat_history_positive (F : Type) (n : nat) (st : storage F) :
  (0 < n)%nat ->
  get_chat_history (Some (Z.of_nat n)) st = lastn n (chat_history st).
Proof.
  intros Hn. unfold get_chat_history. now apply slice_from_negative.
Qed.

Lemma get_chat_history_default (F : Type) (st : storage F) :
  get_chat_history None st = lastn 10 (chat_history st).
Proof.
  apply (get_chat_history_positive (n := 10)). lia.
Qed.

Lemma get_chat_history_negative (F : Type) (n : nat) (st : storage F) :
  get_chat_history (Some (- Z.of_nat n)) st = skipn n (chat_history st).
Proof.
  unfold get_chat_history, PyList.slice_from. rewrite Z.opp_involutive.
  destruct (Z.ltb_spec (Z.of_nat n) 0) as [H|H]; [lia |].
  destruct (Nat.le_gt_cases n (List.length (chat_history st))) as [Hle|Hgt].
  - f_equal. lia.
  - rewrite (skipn_all2 (n := n)) by lia. apply skipn_all2. lia.
Qed.

(** C8, at the limit 0.  [chat_history[-0:]] is the whole list: with the
    limit 0 the endpoint returns every stored turn, not the most recent
    zero turns; after one request that is one turn. *)
Theorem get_chat_history_limit_zero :
  forall (F : Type) (st : storage F),
    get_chat_history (Some 0) st = chat_history st
    /\ List.length
         (get_chat_history (Some 0)
            (stored (Demo.orchestrate Demo.board_request Demo.storage0 0%nat)))
       = 1%nat.
Proof.
  intros F st. split.
  - unfold get_chat_history. apply slice_from_zero.
  - reflexivity.
Qed.

(** ** The orchestrator: [get_executive_response] and [get_executive_responses] *)

Section Orchestrator.

Variable world : Type.
Variable chat_completions_create : string -> string -> world -> completion * world.
Variable pyfloat : Type.

Local Abbreviation respond := (get_executive_response chat_completions_create).
Local Abbreviation gathered := (gather chat_completions_create).

(** What [get_executive_response] returns, and the world it leaves. *)
Lemma get_executive_response_cases (executive_id message context : string) (w : world) :
  match Dict.get executive_id EXECUTIVES with
  | None =>
      respond executive_id message context w
      = (Returned ("Executive " ++ executive_id ++ " not found."), w)
  | Some executive =>
      let sent :=
        chat_completions_create (prompt_with_context executive context) message w in
      respond executive_id message context w
      = (Returned match generated_text (fst sent) with
                  | Some text => text
                  | None => unable_text
                  end,
         snd sent)
  end.
Proof.
  unfold get_executive_response, get_executive_response_try.
  destruct (Dict.get executive_id EXECUTIVES) as [executive|]; [| reflexivity].
  cbv zeta.
  destruct (chat_completions_create (prompt_with_context executive context) message w)
    as [[|[|[content|] choices]] w']; reflexivity.
Qed.

Lemma get_executive_response_returns (executive_id message context : string) (w : world) :
  exists text, fst (respond executive_id message context w) = Returned text.
Proof.
  pose proof (get_executive_response_cases executive_id message context w) as H.
  destruct (Dict.get executive_id EXECUTIVES); cbv zeta in H; rewrite H; simpl; eauto.
Qed.

Lemma gather_cons (id : string) (rest : list string) (message context : string) (w : world) :
  gathered (id :: rest) message context w
  = (fst (respond id message context w)
       :: fst (gathered rest message context (snd (respond id message context w))),
     snd (gathered rest message context (snd (respond id message context w)))).
Proof.
  simpl.
  destruct (get_executive_response chat_completions_create id message context w) as [r w1].
  simpl. destruct (gather chat_completions_create rest message context w1). reflexivity.
Qed.

Lemma gather_length (ids : list string) (message context : string) (w : world) :
  List.length (fst (gathered ids message context w)) = List.length ids.
Proof.
  revert w. induction ids as [|id rest IH]; intros w.
  - reflexivity.
  - rewrite gather_cons. simpl. now rewrite IH.
Qed.

Lemma gather_all_returned (ids : list string) (message context : string) (w : world) :
  Forall (fun r => exists text, r = Returned text)
         (fst (gathered ids message context w)).
Proof.
  revert w. induction ids as [|id rest IH]; intros w.
  - constructor.
  - rewrite gather_cons. simpl. constructor; [| apply IH].
    apply get_executive_response_returns.
Qed.

(** The result of the task at position [j] is that of its coroutine, run
    in the world the tasks before it have left. *)
Lemma gather_nth (ids : list string) (message context : string) :
  forall (j : nat) (id : string) (w : world),
    nth_error ids j = Some id ->
    nth_error (fst (gathered ids message context w)) j
    = Some (fst (respond id message context
                   (snd (gathered (firstn j ids) message context w)))).
Proof.
  induction ids as [|x rest IH]; intros [|j] id w Hj; simpl in Hj; try discriminate.
  - injection Hj as ->. rewrite gather_cons. reflexivity.
  - rewrite gather_cons. simpl nth_error. rewrite (IH j id _ Hj).
    simpl firstn. rewrite gather_cons. reflexivity.
Qed.

(** *** The result loop *)

Lemma process_results_store_all (ids : list string) :
  forall (results before : list (outcome string)) (responses : Dict.t string),
    List.length results = List.length ids ->
    process_results (List.length before) ids (before ++ results)%list responses
    = Returned (store_all ids results responses).
Proof.
  induction ids as [|id rest IH]; intros results before responses Hlen.
  - destruct results; [reflexivity | discriminate].
  - destruct results as [|r results]; [discriminate |].
    simpl in Hlen. injection Hlen as Hlen.
    simpl process_results. unfold PyList.index.
    rewrite nth_error_app2 by lia. rewrite Nat.sub_diag. simpl nth_error.
    assert (Hstep : forall text,
               process_results (S (List.length before)) rest (before ++ r :: results)%list
                               (Dict.set id text responses)
               = Returned (store_all rest results (Dict.set id text responses))).
    { intros text.
      replace (S (List.length before)) with (List.length (before ++ [r])%list)
        by (rewrite length_app; simpl; lia).
      replace (before ++ r :: results)%list with ((before ++ [r]) ++ results)%list
        by (rewrite <- app_assoc; reflexivity).
      now apply IH. }
    destruct r as [text|e]; rewrite Hstep; reflexivity.
Qed.

Lemma store_all_keys (ids : list string) :
  forall (results : list (outcome string)) (responses : Dict.t string) (k : string),
    List.length results = List.length ids ->
    In k (Dict.keys (store_all ids results responses))
    <-> In k (Dict.keys responses) \/ In k ids.
Proof.
  unfold store_all.
  induction ids as [|id rest IH]; intros results responses k Hlen.
  - simpl. tauto.
  - destruct results as [|r results]; [discriminate |].
    simpl in Hlen. injection Hlen as Hlen. simpl.
    rewrite (IH results _ k Hlen), dict_set_in_keys.
    split; intros H; decompose [or] H; subst; auto.
Qed.

Lemma store_all_NoDup (ids : list string) :
  forall (results : list (outcome string)) (responses : Dict.t string),
    NoDup (Dict.keys responses) ->
    NoDup (Dict.keys (store_all ids results responses)).
Proof.
  unfold store_all.
  induction ids as [|id rest IH]; intros results responses Hd.
  - exact Hd.
  - destruct results as [|r results]; [exact Hd |].
    simpl. apply IH. now apply dict_set_NoDup.
Qed.

Lemma store_all_untouched (ids : list string) :
  forall (results : list (outcome string)) (responses : Dict.t string) (k : string),
    ~ In k ids ->
    Dict.get k (store_all ids results responses) = Dict.get k responses.
Proof.
  unfold store_all.
  induction ids as [|id rest IH]; intros results responses k Hk.
  - reflexivity.
  - destruct results as [|r results]; [reflexivity |].
    simpl. rewrite IH by (simpl in Hk; tauto).
    apply dict_get_set_other. simpl in Hk. intuition congruence.
Qed.

(** The loop leaves under an id the result of the last task of that id. *)
Lemma store_all_last (ids : list string) :
  forall (results : list (outcome string)) (responses : Dict.t string)
         (j : nat) (id : string) (r : outcome string),
    nth_error ids j = Some id ->
    nth_error results j = Some r ->
    ~ In id (skipn (S j) ids) ->
    Dict.get id (store_all ids results responses) = Some (stored_text r).
Proof.
  induction ids as [|x rest IH]; intros results responses [|j] id r Hid Hr Hlast;
    simpl in Hid; try discriminate;
    destruct results as [|y results]; simpl in Hr; try discriminate.
  - injection Hid as ->. injection Hr as ->.
    change (store_all (id :: rest) (r :: results) responses)
      with (store_all rest results (Dict.set id (stored_text r) responses)).
    rewrite store_all_untouched by exact Hlast.
    apply dict_get_set_same.
  - change (store_all (x :: rest) (y :: results) responses)
      with (store_all rest results (Dict.set x (stored_text y) responses)).
    now apply (IH results _ j id r).
Qed.

Lemma task_ids_spec (executives : list string) (id : string) :
  In id (task_ids executives) <-> In id executives /\ Dict.mem id EXECUTIVES = true.
Proof.
  unfold task_ids. apply filter_In.
Qed.

(** *** One request, unfolded *)

(** A request always answers 200; this is what it answers and leaves. *)
Lemma get_executive_responses_run (request : ExecutiveResponse.t)
    (clk : clock pyfloat) (st : storage pyfloat) (w : world) :
  let message := ExecutiveResponse.message request in
  let executives := ExecutiveResponse.executives request in
  let context := conversation_context (chat_history st) in
  let ids := task_ids executives in
  let responses := store_all ids (fst (gathered ids message context w)) Dict.empty in
  get_executive_responses chat_completions_create request clk st w
  = mk_run
      (Ok200 (ResponseBody.mk responses (now_isoformat clk) (Dict.len responses)))
      (mk_storage
         (chat_history st
            ++ [ChatEntry.mk (now_isoformat clk) message executives responses])%list
         (track_analytics executives (elapsed_seconds clk) (today clk)
                          (analytics_data st)))
      (snd (gathered ids message context w))
      [(message, executives)].
Proof.
  intros message executives context ids responses.
  unfold get_executive_responses.
  fold message executives context ids.
  pose proof (gather_length ids message context w) as Hlen.
  destruct (gather chat_completions_create ids message context w) as [results w'].
  simpl in Hlen.
  pose proof (process_results_store_all ids results [] Dict.empty Hlen) as Hloop.
  simpl in Hloop. rewrite Hloop. reflexivity.
Qed.

(** *** What every reachable storage satisfies *)

Lemma counts_positive_count_of (d : Dict.t Z) (k : string) :
  counts_positive d -> 0 <= count_of k d.
Proof.
  intros Hd. unfold count_of. destruct (Dict.get k d) as [n|] eqn:E; [| lia].
  specialize (Hd k n E). lia.
Qed.

Lemma occurrences_nonneg (id : string) (ids : list string) : 0 <= occurrences id ids.
Proof. unfold occurrences. lia. Qed.

Lemma occurrences_In (id : string) (ids : list string) :
  In id ids <-> 0 < occurrences id ids.
Proof.
  unfold occurrences. rewrite (count_occ_In string_dec). lia.
Qed.

Lemma usage_loop_positive (ids : list string) (d : Dict.t Z) :
  counts_positive d ->
  counts_positive (fold_left (fun usage exec_id => bump exec_id usage) ids d).
Proof.
  intros Hd k n. rewrite usage_after_loop.
  pose proof (counts_positive_count_of k Hd).
  pose proof (occurrences_nonneg k ids).
  destruct (Z.eqb_spec (occurrences k ids) 0); intros E.
  - now apply (Hd k).
  - injection E as <-. lia.
Qed.

Lemma reachable_usage (st : storage pyfloat) :
  reachable chat_completions_create st ->
  counts_positive (Analytics.executive_usage (analytics_data st))
  /\ NoDup (Dict.keys (Analytics.executive_usage (analytics_data st))).
Proof.
  induction 1 as [|st request clk w Hst [IHpos IHdup]].
  - split; [intros k n; discriminate | constructor].
  - rewrite get_executive_responses_run. simpl. split.
    + now apply usage_loop_positive.
    + now apply usage_loop_NoDup.
Qed.

(** *** The claims about one request *)

(** C1. Every request is answered with status 200.  The keys of the
    response mapping are exactly the requested ids that are keys of
    [EXECUTIVES], each once; these are also exactly the ids a coroutine is
    made for, and the world is changed by those coroutines only, so an id
    outside the table is neither invoked nor answered.
    [executives_consulted] is the number of keys.  A request with no ids
    gets the empty mapping and the count 0. *)
Theorem response_keys_are_registered_ids :
  forall (request : ExecutiveResponse.t) (clk : clock pyfloat)
         (st : storage pyfloat) (w : world),
    exists body,
      reply (get_executive_responses chat_completions_create request clk st w)
      = Ok200 body
      /\ (forall id,
            In id (Dict.keys (ResponseBody.responses body))
            <-> In id (ExecutiveResponse.executives request)
                /\ Dict.mem id EXECUTIVES = true)
      /\ (forall id,
            In id (task_ids (ExecutiveResponse.executives request))
            <-> In id (Dict.keys (ResponseBody.responses body)))
      /\ world_after (get_executive_responses chat_completions_create request clk st w)
         = snd (gathered (task_ids (ExecutiveResponse.executives request))
                         (ExecutiveResponse.message request)
                         (conversation_context (chat_history st)) w)
      /\ NoDup (Dict.keys (ResponseBody.responses body))
      /\ ResponseBody.executives_consulted body
         = Z.of_nat (List.length (Dict.keys (ResponseBody.responses body)))
      /\ (ExecutiveResponse.executives request = [] ->
            ResponseBody.responses body = Dict.empty
            /\ ResponseBody.executives_consulted body = 0).
Proof.
  intros request clk st w.
  rewrite get_executive_responses_run. cbv zeta. cbn [reply world_after].
  eexists; split; [reflexivity |].
  cbn [ResponseBody.responses ResponseBody.executives_consulted].
  set (ids := task_ids (ExecutiveResponse.executives request)).
  set (results := fst (gathered ids _ _ w)).
  assert (Hlen : List.length results = List.length ids) by apply gather_length.
  assert (Hkeys : forall id,
             In id (Dict.keys (store_all ids results Dict.empty)) <-> In id ids).
  { intros id. rewrite store_all_keys by exact Hlen. simpl. tauto. }
  assert (Hreg : forall id,
             In id (Dict.keys (store_all ids results Dict.empty))
             <-> In id (ExecutiveResponse.executives request)
                 /\ Dict.mem id EXECUTIVES = true).
  { intros id. rewrite Hkeys. apply task_ids_spec. }
  split; [exact Hreg |].
  split; [intros id; symmetry; apply Hkeys |].
  split; [reflexivity |].
  split; [apply store_all_NoDup; constructor |].
  split; [unfold Dict.len, Dict.keys; now rewrite length_map |].
  intros Hnone. subst results ids. rewrite Hnone. split; reflexivity.
Qed.

(** The last place at which an id stands in a list that has it. *)
Lemma last_position (id : string) (ids : list string) :
  In id ids ->
  exists j, nth_error ids j = Some id /\ ~ In id (skipn (S j) ids).
Proof.
  induction ids as [|x rest IH]; intros Hin; [contradiction |].
  destruct (in_dec string_dec id rest) as [Hrest|Hrest].
  - destruct (IH Hrest) as (j & Hj & Hlast). exists (S j). auto.
  - destruct Hin as [->|Hin]; [| contradiction].
    exists 0%nat. auto.
Qed.

(** C2. Every request is answered with status 200, whatever the
    completion service does, and every requested id that is a key of
    [EXECUTIVES] is a key of the response mapping.  Under such an id the
    mapping holds the outcome of the invocation made for it (the last one,
    when the id is requested twice): the stripped text of the completion
    when the completion yields one, and the fixed apology of
    [get_executive_response] when the call raised or its result was
    malformed.  What the service did for the other ids does not enter:
    a failure for one id leaves the texts of all others in place.  The
    invocations are those for the registered ids of the request, in the
    order of the request, and the completion of each is the one the
    service gives in the world the earlier ones have left. *)
Theorem failed_invocation_is_isolated :
  forall (request : ExecutiveResponse.t) (clk : clock pyfloat)
         (st : storage pyfloat) (w : world),
    let message := ExecutiveResponse.message request in
    let context := conversation_context (chat_history st) in
    let executives := ExecutiveResponse.executives request in
    let registered := filter (fun id => Dict.mem id EXECUTIVES) executives in
    let outcome_at j executive :=
      match
        generated_text
          (fst (chat_completions_create
                  (prompt_with_context executive context) message
                  (snd (gathered (firstn j registered) message context w))))
      with
      | Some text => text
      | None => unable_text
      end in
    exists body,
      reply (get_executive_responses chat_completions_create request clk st w)
      = Ok200 body
      /\ (forall id,
            In id executives ->
            Dict.mem id EXECUTIVES = true ->
            exists j executive,
              nth_error registered j = Some id
              /\ ~ In id (skipn (S j) registered)
              /\ Dict.get id EXECUTIVES = Some executive
              /\ Dict.get id (ResponseBody.responses body)
                 = Some (outcome_at j executive))
      /\ (forall (j : nat) (id : string),
            nth_error registered j = Some id ->
            ~ In id (skipn (S j) registered) ->
            exists executive,
              Dict.get id EXECUTIVES = Some executive
              /\ Dict.get id (ResponseBody.responses body)
                 = Some (outcome_at j executive)).
Proof.
  intros request clk st w message context executives registered outcome_at.
  rewrite get_executive_responses_run. cbv zeta. cbn [reply].
  eexists; split; [reflexivity |]. cbn [ResponseBody.responses].
  fold message context executives.
  change (task_ids executives) with registered.
  assert (Hat : forall (j : nat) (id : string),
             nth_error registered j = Some id ->
             ~ In id (skipn (S j) registered) ->
             exists executive,
               Dict.get id EXECUTIVES = Some executive
               /\ Dict.get id
                    (store_all registered
                       (fst (gathered registered message context w)) Dict.empty)
                  = Some (outcome_at j executive)).
  { intros j id Hj Hlast.
    assert (Hreg : Dict.mem id EXECUTIVES = true).
    { apply nth_error_In in Hj. apply filter_In in Hj. tauto. }
    unfold Dict.mem in Hreg.
    destruct (Dict.get id EXECUTIVES) as [executive|] eqn:Hexec; [| discriminate].
    exists executive. split; [reflexivity |].
    pose proof (gather_nth registered message context j w Hj) as Hres.
    rewrite (@store_all_last registered _ Dict.empty j id _ Hj Hres Hlast).
    pose proof (get_executive_response_cases id message context
                  (snd (gathered (firstn j registered) message context w))) as Hcase.
    rewrite Hexec in Hcase. cbv zeta in Hcase. rewrite Hcase. reflexivity. }
  split; [| exact Hat].
  intros id Hin Hreg.
  assert (Hmem : In id registered) by (apply filter_In; auto).
  destruct (last_position id registered Hmem) as (j & Hj & Hlast).
  destruct (Hat j id Hj Hlast) as (executive & Hexec & Hget).
  exists j, executive. auto.
Qed.

(** C7, as the code has it.  Every request is answered with status 200 and
    appends exactly one entry at the end of [chat_history], the entries
    before it unchanged.  The entry holds the input message, the list of
    ids as the request gave it (ids outside [EXECUTIVES] included), the
    response mapping that is returned, whose keys are exactly the
    requested ids that are in [EXECUTIVES], and the returned timestamp. *)
Theorem history_gains_one_entry :
  forall (request : ExecutiveResponse.t) (clk : clock pyfloat)
         (st : storage pyfloat) (w : world),
    let r := get_executive_responses chat_completions_create request clk st w in
    exists body,
      reply r = Ok200 body
      /\ chat_history (stored r)
         = (chat_history st
              ++ [ChatEntry.mk (ResponseBody.timestamp body)
                               (ExecutiveResponse.message request)
                               (ExecutiveResponse.executives request)
                               (ResponseBody.responses body)])%list
      /\ (forall id,
            In id (Dict.keys (ResponseBody.responses body))
            <-> In id (ExecutiveResponse.executives request)
                /\ Dict.mem id EXECUTIVES = true).
Proof.
  intros request clk st w r. subst r.
  rewrite get_executive_responses_run. cbv zeta. simpl.
  eexists; split; [reflexivity |]. simpl. split; [reflexivity |].
  intros id. rewrite store_all_keys by apply gather_length.
  rewrite task_ids_spec. simpl. tauto.
Qed.

(** C9. [get_executive_response] always returns a string and raises
    nothing: for an id outside [EXECUTIVES] the fixed not-found sentence
    (and the service is not called), otherwise the stripped text of the
    completion when it yields one and the fixed apology when the call
    raised or its result was malformed.  So every element of [results] in
    [get_executive_responses] is a returned string, none an exception, the
    result loop stores each result as it is, and the text of its
    exception branch is stored only if a coroutine returned that very
    text. *)
Theorem get_executive_response_never_raises :
  forall (executive_id message context : string) (w : world),
    (exists text,
        fst (respond executive_id message context w) = Returned text
        /\ match Dict.get executive_id EXECUTIVES with
           | None =>
               text = "Executive " ++ executive_id ++ " not found."
               /\ snd (respond executive_id message context w) = w
           | Some executive =>
               let sent :=
                 chat_completions_create
                   (prompt_with_context executive context) message w in
               text = match generated_text (fst sent) with
                      | Some generated => generated
                      | None => unable_text
                      end
               /\ snd (respond executive_id message context w) = snd sent
           end)
    /\ (forall (request : ExecutiveResponse.t) (st : storage pyfloat),
          let ids := task_ids (ExecutiveResponse.executives request) in
          let results :=
            fst (gathered ids (ExecutiveResponse.message request)
                          (conversation_context (chat_history st)) w) in
          Forall (fun r => exists text, r = Returned text) results
          /\ process_results 0 ids results Dict.empty
             = Returned
                 (fold_left
                    (fun d p =>
                       match returned_text (snd p) with
                       | Some text => Dict.set (fst p) text d
                       | None => d
                       end)
                    (combine ids results) Dict.empty)).
Proof.
  intros executive_id message context w. split.
  - pose proof (get_executive_response_cases executive_id message context w) as H.
    destruct (Dict.get executive_id EXECUTIVES) as [executive|];
      cbv zeta in H |- *; rewrite H; simpl; eauto.
  - intros request st ids results.
    pose proof (gather_all_returned ids (ExecutiveResponse.message request)
                  (conversation_context (chat_history st)) w) as Hall.
    fold results in Hall. split; [exact Hall |].
    pose proof (gather_length ids (ExecutiveResponse.message request)
                  (conversation_context (chat_history st)) w) as Hlen.
    fold results in Hlen.
    pose proof (process_results_store_all ids results [] Dict.empty Hlen) as Hloop.
    cbn [List.length app] in Hloop. rewrite Hloop.
    f_equal. unfold store_all. clearbody results. clear Hlen Hloop.
    generalize (@Dict.empty string). clearbody ids. revert ids.
    induction Hall as [|r results [text ->] Hall IH]; intros ids d.
    + destruct ids; reflexivity.
    + destruct ids as [|id ids]; [reflexivity |]. simpl. apply IH.
Qed.

(** C10. [track_analytics] is given the ids as requested, not the ids of
    the tasks.  In a reachable storage, after a request that names an id
    outside [EXECUTIVES], the usage mapping has that id with a positive
    count (its count before plus the number of times the request names
    it), while the id is no key of the response mapping and no coroutine
    was made for it. *)
Theorem unknown_id_is_counted :
  forall (request : ExecutiveResponse.t) (clk : clock pyfloat)
         (st : storage pyfloat) (w : world) (id : string),
    reachable chat_completions_create st ->
    In id (ExecutiveResponse.executives request) ->
    Dict.mem id EXECUTIVES = false ->
    let r := get_executive_responses chat_completions_create request clk st w in
    let usage := Analytics.executive_usage (analytics_data (stored r)) in
    exists body n,
      reply r = Ok200 body
      /\ Dict.get id usage = Some n
      /\ 0 < n
      /\ n = count_of id (Analytics.executive_usage (analytics_data st))
             + occurrences id (ExecutiveResponse.executives request)
      /\ Dict.get id (ResponseBody.responses body) = None
      /\ ~ In id (task_ids (ExecutiveResponse.executives request)).
Proof.
  intros request clk st w id Hst Hin Hout r usage. subst usage r.
  rewrite get_executive_responses_run. cbv zeta. simpl.
  assert (Htask : ~ In id (task_ids (ExecutiveResponse.executives request))).
  { rewrite task_ids_spec. intros [_ H]. congruence. }
  destruct (reachable_usage Hst) as [Hpos _].
  pose proof (counts_positive_count_of id Hpos) as Hcount.
  apply occurrences_In in Hin.
  eexists; eexists. split; [reflexivity |]. simpl.
  rewrite usage_after_loop.
  destruct (Z.eqb_spec (occurrences id (ExecutiveResponse.executives request)) 0);
    [lia |].
  split; [reflexivity |]. split; [lia |]. split; [reflexivity |].
  split; [| exact Htask].
  now apply store_all_untouched.
Qed.

End Orchestrator.

(** ** Analytics: [get_analytics] *)

(** [max] with a key: the element returned is the first one of greatest
    key: the elements before it have smaller keys, those after it no
    greater ones. *)
Lemma max_from_first_greatest {A : Type} (key : A -> Z) (l : list A) :
  forall best : A,
    exists before after,
      best :: l = (before ++ PyList.max_from key best l :: after)%list
      /\ (forall x, In x before -> key x < key (PyList.max_from key best l))
      /\ (forall x, In x after -> key x <= key (PyList.max_from key best l)).
Proof.
  induction l as [|x r IH]; intros best; simpl.
  - exists [], []. split; [reflexivity |]. split; intros y [].
  - destruct (Z.gtb_spec (key x) (key best)) as [Hgt|Hle].
    + destruct (IH x) as (before & after & Hsplit & Hlt & Hle).
      exists (best :: before), after. rewrite Hsplit.
      split; [reflexivity |]. split; [| exact Hle].
      assert (Hx : key x <= key (PyList.max_from key x r)).
      { assert (Hin : In x (before ++ PyList.max_from key x r :: after)%list)
          by (rewrite <- Hsplit; now left).
        apply in_app_or in Hin. destruct Hin as [Hin|[E|Hin]].
        - specialize (Hlt x Hin). lia.
        - rewrite E. lia.
        - now apply Hle. }
      intros y [E|Hy]; [rewrite <- E; lia | now apply Hlt].
    + destruct (IH best) as (before & after & Hsplit & Hlt & Hle').
      destruct before as [|b before]; simpl in Hsplit.
      * injection Hsplit as Hbest Hr.
        exists [], (x :: after). rewrite <- Hbest in Hle' |- *. rewrite Hr.
        split; [reflexivity |]. split; [intros y [] |].
        intros y [E|Hy]; [rewrite <- E; lia | now apply Hle'].
      * injection Hsplit as <- Hr.
        exists (best :: x :: before), after.
        split; [simpl; do 2 f_equal; exact Hr |]. split; [| exact Hle'].
        assert (Hb : key best < key (PyList.max_from key best r))
          by (apply Hlt; now left).
        intros y [E|[E|Hy]]; [rewrite <- E; exact Hb | rewrite <- E; lia | apply Hlt; now right].
Qed.

Lemma dict_get_In {V : Type} (d : Dict.t V) (k : string) (v : V) :
  NoDup (Dict.keys d) -> In (k, v) d -> Dict.get k d = Some v.
Proof.
  induction d as [|[k' v'] r IH]; simpl; intros Hd Hin; [contradiction |].
  inversion Hd as [|? ? Hnotin Hr]; subst.
  destruct Hin as [E|Hin].
  - injection E as -> ->. now rewrite String.eqb_refl.
  - destruct (String.eqb_spec k k') as [->|_]; [| now apply IH].
    exfalso. apply Hnotin. change k' with (fst (k', v)). now apply in_map.
Qed.

Lemma dict_In_get {V : Type} (d : Dict.t V) (k : string) (v : V) :
  Dict.get k d = Some v -> In (k, v) d.
Proof.
  induction d as [|[k' v'] r IH]; simpl; [discriminate |].
  destruct (String.eqb_spec k k') as [->|_].
  - intros E. injection E as ->. now left.
  - intros E. right. now apply IH.
Qed.

Section Summary.

Variable pyfloat : Type.
Variable float_sum : list pyfloat -> pyfloat.
Variable float_div : pyfloat -> Z -> pyfloat.
Variable float_round2 : pyfloat -> pyfloat.

(** C5. [get_analytics] returns the total, the usage mapping and the day
    mapping as they are stored.  The average is the integer 0 when there
    are no samples, and otherwise the sum of the samples divided by their
    number, rounded to two places (float arithmetic as the language gives
    it).  The most popular executive is [None] for an empty usage mapping;
    otherwise it is a key whose count no other count exceeds, and among
    such keys the one that entered the mapping first: every key before it
    has a smaller count. *)
Theorem analytics_summary :
  forall st : storage pyfloat,
    let a := analytics_data st in
    let usage := Analytics.executive_usage a in
    let body := get_analytics float_sum float_div float_round2 st in
    AnalyticsBody.total_conversations body = Analytics.total_conversations a
    /\ AnalyticsBody.executive_usage body = usage
    /\ AnalyticsBody.daily_stats body = Analytics.daily_stats a
    /\ (Analytics.response_times a = [] ->
          AnalyticsBody.average_response_time body = PyInt 0)
    /\ (Analytics.response_times a <> [] ->
          AnalyticsBody.average_response_time body
          = PyFloat
              (float_round2
                 (float_div (float_sum (Analytics.response_times a))
                            (Z.of_nat (List.length (Analytics.response_times a))))))
    /\ (usage = [] -> AnalyticsBody.most_popular_executive body = None)
    /\ (usage <> [] ->
          exists before id n after,
            Dict.items usage = (before ++ (id, n) :: after)%list
            /\ AnalyticsBody.most_popular_executive body = Some id
            /\ (forall k c, In (k, c) before -> c < n)
            /\ (forall k c, In (k, c) after -> c <= n)
            /\ (NoDup (Dict.keys usage) ->
                  Dict.get id usage = Some n
                  /\ forall k c, Dict.get k usage = Some c -> c <= n)).
Proof.
  intros st a usage body. subst body. unfold get_analytics. fold a. fold usage.
  cbn [AnalyticsBody.total_conversations AnalyticsBody.executive_usage
       AnalyticsBody.daily_stats AnalyticsBody.average_response_time
       AnalyticsBody.most_popular_executive].
  split; [reflexivity |]. split; [reflexivity |]. split; [reflexivity |].
  split; [intros ->; reflexivity |].
  split; [destruct (Analytics.response_times a); [congruence | reflexivity] |].
  split; [intros ->; reflexivity |].
  intros Hne. unfold Dict.items.
  destruct usage as [|first rest] eqn:Husage; [congruence |].
  cbn [Dict.truthy PyList.max_by option_map].
  destruct (max_from_first_greatest (@snd string Z) rest first)
    as (before & after & Hsplit & Hlt & Hle).
  destruct (PyList.max_from (@snd string Z) first rest) as [id n] eqn:Hmax.
  exists before, id, n, after. cbn [fst snd] in *.
  split; [exact Hsplit |]. split; [reflexivity |].
  split; [intros k c Hin; exact (Hlt (k, c) Hin) |].
  split; [intros k c Hin; exact (Hle (k, c) Hin) |].
  intros Hdup. split.
  - apply dict_get_In; [exact Hdup |]. rewrite Hsplit. apply in_elt.
  - intros k c Hget. apply dict_In_get in Hget. rewrite Hsplit in Hget.
    apply in_app_or in Hget. destruct Hget as [Hin|[E|Hin]].
    + specialize (Hlt (k, c) Hin). simpl in Hlt. lia.
    + injection E as _ ->. lia.
    + exact (Hle (k, c) Hin).
Qed.

End Summary.

(** ** The program run in the small world *)

(** Of three requested executives the second one's completion fails: its
    key holds the apology, the other two hold their stripped texts, and
    the request is answered. *)
Example board_request_run :
  reply (Demo.orchestrate Demo.board_request Demo.storage0 0%nat)
  = Ok200
      (ResponseBody.mk
         [("garrett", "Noted: Should we expand?");
          ("steve", unable_text);
          ("xander", "Noted: Should we expand?")]
         "2024-05-01T09:30:00.000000" 3).
Proof. reflexivity. Qed.

(** A tie between two counts goes to the key that entered first. *)
Example most_popular_tie :
  AnalyticsBody.most_popular_executive
    (get_analytics Demo.float_sum Demo.float_div Demo.float_round2
       (mk_storage []
          (Analytics.mk 4 [("melon", 1); ("steve", 2); ("garrett", 2)] []
                        [(1 # 2)%Q])))
  = Some "steve".
Proof. reflexivity. Qed.

(** C7 as stated fails: the request names "garrett" and "bogus", and
    "bogus" is no key of [EXECUTIVES].  The entry appended to the history
    lists both ids, while the ids of the tasks and the keys of the
    response mapping are "garrett" alone: the entry's ids are not the
    filtered ids. *)
Lemma history_entry_keeps_unknown_id :
  let r := Demo.orchestrate Demo.stranger_request Demo.storage0 0%nat in
  exists body turn,
    reply r = Ok200 body
    /\ chat_history (stored r) = (chat_history Demo.storage0 ++ [turn])%list
    /\ ChatEntry.executives turn = ["garrett"; "bogus"]
    /\ task_ids (ExecutiveResponse.executives Demo.stranger_request) = ["garrett"]
    /\ Dict.keys (ResponseBody.responses body) = ["garrett"]
    /\ Dict.mem "bogus" EXECUTIVES = false
    /\ same_ids (ChatEntry.executives turn)
                (task_ids (ExecutiveResponse.executives Demo.stranger_request))
       = false.
Proof.
  cbv zeta. eexists; eexists.
  split; [reflexivity |]. split; [reflexivity |]. repeat split.
Qed.

(** C10 at the request that names "garrett" and "bogus", from the initial
    storage. *)
Lemma unknown_id_is_counted_witness :
  reachable Demo.chat_completions_create Demo.storage0
  /\ In "bogus" (ExecutiveResponse.executives Demo.stranger_request)
  /\ Dict.mem "bogus" EXECUTIVES = false
  /\ exists body n,
       reply (Demo.orchestrate Demo.stranger_request Demo.storage0 0%nat) = Ok200 body
       /\ Dict.get "bogus"
            (Analytics.executive_usage
               (analytics_data
                  (stored (Demo.orchestrate Demo.stranger_request Demo.storage0 0%nat))))
          = Some n
       /\ 0 < n
       /\ n = count_of "bogus" (Analytics.executive_usage (analytics_data Demo.storage0))
              + occurrences "bogus" (ExecutiveResponse.executives Demo.stranger_request)
       /\ Dict.get "bogus" (ResponseBody.responses body) = None
       /\ ~ In "bogus" (task_ids (ExecutiveResponse.executives Demo.stranger_request)).
Proof.
  split; [apply reachable_initial |].
  split; [simpl; auto |].
  split; [reflexivity |].
  apply (@unknown_id_is_counted Demo.world Demo.chat_completions_create Demo.pyfloat
           Demo.stranger_request Demo.clk Demo.storage0 0%nat "bogus").
  - apply reachable_initial.
  - simpl; auto.
  - reflexivity.
Defined.

(** ** The table *)

Lemma EXECUTIVES_loaded :
  List.length EXECUTIVES = 18%nat /\ NoDup (Dict.keys EXECUTIVES).
Proof.
  split; [reflexivity |].
  repeat constructor; simpl; intuition discriminate.
Qed.

(** * Further properties *)

(** ** Lists and dictionaries, continued *)

Lemma filter_filter_and {A : Type} (p q : A -> bool) (l : list A) :
  filter p (filter q l) = filter (fun a => q a && p a) l.
Proof.
  induction l as [|a l IH]; simpl; [reflexivity |].
  destruct (q a); simpl; [destruct (p a) |]; now rewrite IH.
Qed.

Lemma filter_all {A : Type} (p : A -> bool) (l : list A) :
  (forall a, In a l -> p a = true) -> filter p l = l.
Proof.
  induction l as [|a l IH]; simpl; intros H; [reflexivity |].
  rewrite (H a) by now left. f_equal. apply IH. intros b Hb. apply H. now right.
Qed.

Lemma filter_length_le {A : Type} (p : A -> bool) (l : list A) :
  (List.length (filter p l) <= List.length l)%nat.
Proof.
  induction l as [|a l IH]; simpl; [lia |]. destruct (p a); simpl; lia.
Qed.

Lemma lastn_snoc {A : Type} (n : nat) (l : list A) (x : A) :
  lastn (S n) (l ++ [x]) = (lastn n l ++ [x])%list.
Proof.
  unfold lastn. rewrite length_app. simpl List.length.
  replace (List.length l + 1 - S n)%nat with (List.length l - n)%nat by lia.
  rewrite skipn_app.
  replace (List.length l - n - List.length l)%nat with 0%nat by lia.
  reflexivity.
Qed.

Lemma lastn_app_exact {A : Type} (older recent : list A) :
  lastn (List.length recent) (older ++ recent) = recent.
Proof.
  unfold lastn. rewrite length_app.
  replace (List.length older + List.length recent - List.length recent)%nat
    with (List.length older) by lia.
  rewrite skipn_app, skipn_all, Nat.sub_diag. reflexivity.
Qed.

Lemma dict_mem_set {V : Type} (k k' : string) (v : V) (d : Dict.t V) :
  Dict.mem k' (Dict.set k v d) = String.eqb k' k || Dict.mem k' d.
Proof.
  unfold Dict.mem. destruct (String.eqb_spec k' k) as [->|Hne].
  - now rewrite dict_get_set_same.
  - now rewrite dict_get_set_other.
Qed.

Lemma dict_sum_set (k : string) (v : Z) (d : Dict.t Z) :
  dict_sum (Dict.set k v d) = dict_sum d - count_of k d + v.
Proof.
  unfold dict_sum, count_of. induction d as [|[k' v'] r IH]; simpl.
  - lia.
  - destruct (String.eqb k k'); simpl; [lia |]. rewrite IH. lia.
Qed.

Lemma dict_sum_bump (k : string) (d : Dict.t Z) : dict_sum (bump k d) = dict_sum d + 1.
Proof.
  unfold bump. destruct (Dict.get k d) as [n|] eqn:E; rewrite dict_sum_set;
    unfold count_of; rewrite E; lia.
Qed.

Lemma dict_sum_usage_loop (ids : list string) (d : Dict.t Z) :
  dict_sum (fold_left (fun usage exec_id => bump exec_id usage) ids d)
  = dict_sum d + Z.of_nat (List.length ids).
Proof.
  revert d. induction ids as [|id rest IH]; intros d; simpl fold_left.
  - simpl. lia.
  - rewrite IH, dict_sum_bump. simpl List.length. lia.
Qed.

Lemma named_in_history_snoc (id : string) (history : list ChatEntry.t) (e : ChatEntry.t) :
  named_in_history id (history ++ [e])
  = named_in_history id history + occurrences id (ChatEntry.executives e).
Proof.
  unfold named_in_history. induction history as [|x r IH]; simpl.
  - lia.
  - rewrite IH. lia.
Qed.

Lemma named_in_history_nonneg (id : string) (history : list ChatEntry.t) :
  0 <= named_in_history id history.
Proof.
  unfold named_in_history. induction history as [|x r IH]; simpl; [lia |].
  pose proof (occurrences_nonneg id (ChatEntry.executives x)). lia.
Qed.

Lemma named_in_history_positive (id : string) (history : list ChatEntry.t) :
  0 < named_in_history id history
  <-> exists e, In e history /\ In id (ChatEntry.executives e).
Proof.
  unfold named_in_history. induction history as [|x r IH]; simpl.
  - split; [lia | intros (e & [] & _)].
  - pose proof (occurrences_nonneg id (ChatEntry.executives x)) as Hx.
    pose proof (named_in_history_nonneg id r) as Hr. unfold named_in_history in Hr.
    split.
    + intros Hpos.
      destruct (Z.eq_dec (occurrences id (ChatEntry.executives x)) 0) as [E|E].
      * destruct (proj1 IH ltac:(lia)) as (e & He & Hid). exists e. auto.
      * exists x. split; [now left |]. apply occurrences_In. lia.
    + intros (e & [<-|He] & Hid).
      * apply occurrences_In in Hid. lia.
      * assert (0 < fold_right Z.add 0
                      (map (fun e => occurrences id (ChatEntry.executives e)) r))
          by (apply IH; eauto).
        lia.
Qed.

(** ** The storage over many requests *)

Section Histories.

Variable world : Type.
Variable chat_completions_create : string -> string -> world -> completion * world.
Variable pyfloat : Type.

Local Abbreviation request_step :=
  (get_executive_responses (pyfloat := pyfloat) chat_completions_create).

Lemma serve_reachable (calls : list (ExecutiveResponse.t * clock pyfloat)) :
  forall (st : storage pyfloat) (w : world),
    reachable chat_completions_create st ->
    reachable chat_completions_create (fst (serve chat_completions_create calls st w)).
Proof.
  induction calls as [|[request clk] rest IH]; intros st w Hst; simpl.
  - exact Hst.
  - apply IH. now apply reachable_request.
Qed.

Lemma reachable_counters (st : storage pyfloat) :
  reachable chat_completions_create st ->
  Analytics.total_conversations (analytics_data st)
  = Z.of_nat (List.length (chat_history st))
  /\ List.length (Analytics.response_times (analytics_data st))
     = List.length (chat_history st)
  /\ dict_sum (Analytics.daily_stats (analytics_data st))
     = Analytics.total_conversations (analytics_data st).
Proof.
  induction 1 as [|st request clk w Hst (IHt & IHr & IHd)].
  - repeat split.
  - rewrite get_executive_responses_run. cbv zeta.
    cbn [stored chat_history analytics_data]. unfold track_analytics.
    cbn [Analytics.total_conversations Analytics.response_times Analytics.daily_stats].
    rewrite !length_app, dict_sum_bump, IHt, IHr, IHd. simpl List.length.
    repeat split; lia.
Qed.

Lemma reachable_usage_named (st : storage pyfloat) :
  reachable chat_completions_create st ->
  forall id,
    Dict.get id (Analytics.executive_usage (analytics_data st))
    = if named_in_history id (chat_history st) =? 0
      then None
      else Some (named_in_history id (chat_history st)).
Proof.
  induction 1 as [|st request clk w Hst IH]; intros id.
  - reflexivity.
  - rewrite get_executive_responses_run. cbv zeta.
    cbn [stored chat_history analytics_data]. unfold track_analytics.
    cbn [Analytics.executive_usage].
    rewrite usage_after_loop, named_in_history_snoc. cbn [ChatEntry.executives].
    unfold count_of. rewrite (IH id).
    pose proof (named_in_history_nonneg id (chat_history st)) as Hn.
    pose proof (occurrences_nonneg id (ExecutiveResponse.executives request)) as Ho.
    destruct (Z.eqb_spec (occurrences id (ExecutiveResponse.executives request)) 0)
      as [E|E];
      destruct (Z.eqb_spec (named_in_history id (chat_history st)) 0) as [E'|E'];
      match goal with
      | |- context [?a + ?b =? 0] => destruct (Z.eqb_spec (a + b) 0)
      end; try lia; try reflexivity; f_equal; lia.
Qed.

(** X1. In every reachable storage the counters agree: the total of
    conversations is the number of entries of the history and the number
    of response-time samples, and it is the sum of the daily buckets. *)
Theorem storage_counters_agree :
  forall st : storage pyfloat,
    reachable chat_completions_create st ->
    Analytics.total_conversations (analytics_data st)
    = Z.of_nat (List.length (chat_history st))
    /\ List.length (Analytics.response_times (analytics_data st))
       = List.length (chat_history st)
    /\ dict_sum (Analytics.daily_stats (analytics_data st))
       = Z.of_nat (List.length (chat_history st)).
Proof.
  intros st Hst. destruct (reachable_counters Hst) as (Ht & Hr & Hd).
  rewrite Hd. auto.
Qed.

(** X2. In every reachable storage the usage count of an id is the
    number of times the requests of the history name it, registered or
    not; an id is a key of the usage mapping exactly when some entry of
    the history names it, and the counts add up to the number of ids all
    requests named. *)
Theorem usage_counts_match_history :
  forall st : storage pyfloat,
    reachable chat_completions_create st ->
    let usage := Analytics.executive_usage (analytics_data st) in
    (forall id, count_of id usage = named_in_history id (chat_history st))
    /\ (forall id,
          Dict.mem id usage = true
          <-> exists e, In e (chat_history st) /\ In id (ChatEntry.executives e))
    /\ dict_sum usage
       = Z.of_nat (List.length (flat_map ChatEntry.executives (chat_history st))).
Proof.
  intros st Hst usage. subst usage. split; [| split].
  - intros id. unfold count_of. rewrite (reachable_usage_named Hst id).
    destruct (Z.eqb_spec (named_in_history id (chat_history st)) 0); congruence.
  - intros id. rewrite <- named_in_history_positive.
    unfold Dict.mem. rewrite (reachable_usage_named Hst id).
    pose proof (named_in_history_nonneg id (chat_history st)).
    destruct (Z.eqb_spec (named_in_history id (chat_history st)) 0);
      split; intros; try lia; congruence.
  - induction Hst as [|st request clk w Hst IH].
    + reflexivity.
    + rewrite get_executive_responses_run. cbv zeta.
      cbn [stored chat_history analytics_data]. unfold track_analytics.
      cbn [Analytics.executive_usage].
      rewrite dict_sum_usage_loop, IH, flat_map_app, !length_app.
      simpl. rewrite app_nil_r. lia.
Qed.

Lemma first_occurrences_In (id : string) (ids : list string) :
  In id (first_occurrences ids) <-> In id ids.
Proof.
  induction ids as [|x r IH]; simpl; [tauto |].
  rewrite filter_In, IH. destruct (String.eqb_spec id x) as [->|Hne]; simpl.
  - split; auto.
  - split; [intros [E|[H _]]; auto | intros [E|H]; [congruence | auto]].
Qed.

Lemma first_occurrences_length (ids : list string) :
  (List.length (first_occurrences ids) <= List.length ids)%nat.
Proof.
  induction ids as [|x r IH]; simpl; [lia |].
  pose proof (filter_length_le (fun other => negb (String.eqb other x))
                               (first_occurrences r)).
  lia.
Qed.

Lemma first_occurrences_NoDup (ids : list string) :
  NoDup ids -> first_occurrences ids = ids.
Proof.
  induction 1 as [|x r Hx Hr IH]; simpl; [reflexivity |].
  rewrite IH. f_equal. apply filter_all. intros a Ha.
  destruct (String.eqb_spec a x) as [->|_]; [contradiction | reflexivity].
Qed.

(** The result loop puts a new key behind the keys there are, so the keys
    stand in the order in which the tasks first name them. *)
Lemma store_all_keys_order (ids : list string) :
  forall (results : list (outcome string)) (responses : Dict.t string),
    List.length results = List.length ids ->
    Dict.keys (store_all ids results responses)
    = (Dict.keys responses
         ++ filter (fun id => negb (Dict.mem id responses)) (first_occurrences ids))%list.
Proof.
  induction ids as [|x r IH]; intros results responses Hlen.
  - destruct results; [| discriminate]. simpl. now rewrite app_nil_r.
  - destruct results as [|y results]; [discriminate |].
    simpl in Hlen. injection Hlen as Hlen.
    change (store_all (x :: r) (y :: results) responses)
      with (store_all r results (Dict.set x (stored_text y) responses)).
    rewrite (IH results _ Hlen), dict_keys_set.
    rewrite (filter_ext _ (fun id => negb (String.eqb id x) && negb (Dict.mem id responses)))
      by (intros id; rewrite dict_mem_set; apply negb_orb).
    simpl first_occurrences. simpl filter at 2. rewrite filter_filter_and.
    destruct (Dict.mem x responses); simpl.
    + reflexivity.
    + now rewrite <- app_assoc.
Qed.

(** X3. Every entry of a reachable history is well formed: the keys of
    its response mapping are the registered ids among the ids the entry
    lists, each once, in the order in which the request first named them;
    no key is an id outside [EXECUTIVES]. *)
Theorem history_entries_are_well_formed :
  forall st : storage pyfloat,
    reachable chat_completions_create st ->
    Forall
      (fun e =>
         Dict.keys (ChatEntry.responses e)
         = first_occurrences (task_ids (ChatEntry.executives e))
         /\ NoDup (Dict.keys (ChatEntry.responses e))
         /\ forall id,
              In id (Dict.keys (ChatEntry.responses e))
              <-> In id (ChatEntry.executives e) /\ Dict.mem id EXECUTIVES = true)
      (chat_history st).
Proof.
  induction 1 as [|st request clk w Hst IH].
  - constructor.
  - rewrite get_executive_responses_run. cbv zeta. cbn [stored chat_history].
    apply Forall_app. split; [exact IH |]. constructor; [| constructor].
    cbn [ChatEntry.responses ChatEntry.executives].
    set (ids := task_ids (ExecutiveResponse.executives request)).
    assert (Hkeys : Dict.keys
                      (store_all ids
                         (fst (gather chat_completions_create ids
                                 (ExecutiveResponse.message request)
                                 (conversation_context (chat_history st)) w))
                         Dict.empty)
                    = first_occurrences ids).
    { rewrite store_all_keys_order by apply gather_length.
      simpl. apply filter_all. reflexivity. }
    split; [exact Hkeys |]. split.
    + apply store_all_NoDup. constructor.
    + intros id. rewrite Hkeys, first_occurrences_In. apply task_ids_spec.
Qed.

(** X4. Requests served one after the other leave the earlier entries of
    the history as they were and append one entry per request, in the
    order of the requests, each with the timestamp, the message and the
    id list of its request.  The total rises by the number of requests,
    and no usage count ever falls. *)
Theorem serving_appends_in_order :
  forall (calls : list (ExecutiveResponse.t * clock pyfloat))
         (st : storage pyfloat) (w : world),
    let st' := fst (serve chat_completions_create calls st w) in
    (exists newer,
        chat_history st' = (chat_history st ++ newer)%list
        /\ map entry_request newer
           = map (fun c => (now_isoformat (snd c),
                            ExecutiveResponse.message (fst c),
                            ExecutiveResponse.executives (fst c))) calls)
    /\ Analytics.total_conversations (analytics_data st')
       = Analytics.total_conversations (analytics_data st)
         + Z.of_nat (List.length calls)
    /\ forall id,
         count_of id (Analytics.executive_usage (analytics_data st))
         <= count_of id (Analytics.executive_usage (analytics_data st')).
Proof.
  induction calls as [|[request clk] rest IH]; intros st w st'; subst st'.
  - simpl. split; [exists []; now rewrite app_nil_r |]. split; [lia | intros; lia].
  - simpl serve. set (r := request_step request clk st w).
    assert (Hhist : chat_history (stored r)
                    = (chat_history st
                         ++ [ChatEntry.mk (now_isoformat clk)
                               (ExecutiveResponse.message request)
                               (ExecutiveResponse.executives request)
                               (store_all (task_ids (ExecutiveResponse.executives request))
                                  (fst (gather chat_completions_create
                                          (task_ids (ExecutiveResponse.executives request))
                                          (ExecutiveResponse.message request)
                                          (conversation_context (chat_history st)) w))
                                  Dict.empty)])%list)
      by (subst r; now rewrite get_executive_responses_run).
    assert (Hdata : analytics_data (stored r)
                    = track_analytics (ExecutiveResponse.executives request)
                        (elapsed_seconds clk) (today clk) (analytics_data st))
      by (subst r; now rewrite get_executive_responses_run).
    specialize (IH (stored r) (world_after r)).
    cbv zeta in IH. destruct IH as ((newer & Hh & Hm) & Ht & Hu).
    rewrite Hhist in Hh. rewrite Hdata in Ht, Hu.
    unfold track_analytics in Ht, Hu.
    cbn [Analytics.total_conversations Analytics.executive_usage] in Ht, Hu.
    split; [| split].
    + eexists (_ :: newer). split.
      * rewrite Hh, <- app_assoc. reflexivity.
      * simpl. now rewrite Hm.
    + rewrite Ht. simpl List.length. lia.
    + intros id. specialize (Hu id). rewrite count_of_after_loop in Hu.
      pose proof (occurrences_nonneg id (ExecutiveResponse.executives request)). lia.
Qed.

End Histories.

(** ** History retrieval and context, continued *)

Lemma conversation_context_lastn (history : list ChatEntry.t) :
  conversation_context history
  = PyStr.join " | "
      (map (fun turn => "User: " ++ ChatEntry.message turn) (lastn 3 history)).
Proof.
  unfold conversation_context. destruct history as [|t rest]; [reflexivity |].
  replace (Z.of_nat (List.length (t :: rest)) >? 0) with true
    by (symmetry; apply Z.gtb_lt; simpl; lia).
  change (-3) with (- Z.of_nat 3). now rewrite slice_from_negative by lia.
Qed.

Lemma join_snoc (sep : string) (parts : list string) (x : string) :
  PyStr.join sep (parts ++ [x])
  = match parts with
    | [] => x
    | _ => PyStr.join sep parts ++ sep ++ x
    end.
Proof.
  induction parts as [|a [|b r] IH]; try reflexivity.
  change (PyStr.join sep ((a :: b :: r) ++ [x]))
    with (a ++ sep ++ PyStr.join sep ((b :: r) ++ [x])).
  rewrite IH.
  change (PyStr.join sep (a :: b :: r)) with (a ++ sep ++ PyStr.join sep (b :: r)).
  now rewrite !string_app_assoc.
Qed.

(** X5. Whatever the limit is (none, positive, zero or negative),
    [get_chat_history] returns a suffix of the stored history: the turns
    it returns are stored turns, in stored order, the last stored turn
    last.  For a positive limit it returns as many turns as the limit
    says, or all when there are fewer; without a limit, at most 10. *)
Theorem chat_history_slice_is_suffix :
  forall (F : Type) (limit : option Z) (st : storage F),
    (exists older, chat_history st = (older ++ get_chat_history limit st)%list)
    /\ (forall p : positive,
          List.length (get_chat_history (Some (Z.pos p)) st)
          = Nat.min (Pos.to_nat p) (List.length (chat_history st)))
    /\ List.length (get_chat_history None st)
       = Nat.min 10 (List.length (chat_history st)).
Proof.
  intros F limit st. split; [| split].
  - unfold get_chat_history, PyList.slice_from.
    eexists. symmetry. apply firstn_skipn.
  - intros p. rewrite <- (positive_nat_Z p).
    rewrite get_chat_history_positive by lia.
    apply (lastn_split (Pos.to_nat p) (chat_history st)).
  - rewrite get_chat_history_default. apply (lastn_split 10 (chat_history st)).
Qed.

(** X7. The context forgets everything but the last three turns, and of
    those it reads the messages only: turns older than the last three do
    not change it, and two histories whose last three turns carry the same
    messages give the same context, whatever their timestamps, id lists
    and responses are. *)
Theorem context_window_is_bounded :
  (forall (older : list ChatEntry.t) (t1 t2 t3 : ChatEntry.t),
      conversation_context (older ++ [t1; t2; t3])
      = conversation_context [t1; t2; t3])
  /\ (forall h1 h2 : list ChatEntry.t,
        map ChatEntry.message (lastn 3 h1) = map ChatEntry.message (lastn 3 h2) ->
        conversation_context h1 = conversation_context h2).
Proof.
  split.
  - intros older t1 t2 t3. rewrite !conversation_context_lastn.
    pose proof (lastn_app_exact older [t1; t2; t3]) as Hlast.
    cbn [List.length] in Hlast. rewrite Hlast. reflexivity.
  - intros h1 h2 Hmsg. rewrite !conversation_context_lastn.
    rewrite <- !(map_map ChatEntry.message (fun m => "User: " ++ m)).
    now rewrite Hmsg.
Qed.

(** ** One request, continued *)

Section Requests.

Variable world : Type.
Variable chat_completions_create : string -> string -> world -> completion * world.
Variable pyfloat : Type.

Local Abbreviation request_step :=
  (get_executive_responses (pyfloat := pyfloat) chat_completions_create).

(** X6. The turn a request appends is the last turn every later
    retrieval with a positive limit, or with no limit, returns. *)
Theorem new_turn_is_retrieved_last :
  forall (request : ExecutiveResponse.t) (clk : clock pyfloat)
         (st : storage pyfloat) (w : world) (p : positive),
    let r := request_step request clk st w in
    exists body,
      reply r = Ok200 body
      /\ let turn :=
           ChatEntry.mk (ResponseBody.timestamp body)
                        (ExecutiveResponse.message request)
                        (ExecutiveResponse.executives request)
                        (ResponseBody.responses body) in
         (exists earlier,
             get_chat_history (Some (Z.pos p)) (stored r) = (earlier ++ [turn])%list)
         /\ (exists earlier,
               get_chat_history None (stored r) = (earlier ++ [turn])%list)
         /\ get_chat_history (Some 1) (stored r) = [turn].
Proof.
  intros request clk st w p r. subst r.
  rewrite get_executive_responses_run. cbv zeta. cbn [reply stored].
  eexists; split; [reflexivity |].
  cbn [ResponseBody.timestamp ResponseBody.responses].
  assert (Hlast : forall n,
             get_chat_history (Some (Z.of_nat (S n)))
               (mk_storage
                  (chat_history st
                     ++ [ChatEntry.mk (now_isoformat clk)
                           (ExecutiveResponse.message request)
                           (ExecutiveResponse.executives request)
                           (store_all (task_ids (ExecutiveResponse.executives request))
                              (fst (gather chat_completions_create
                                      (task_ids (ExecutiveResponse.executives request))
                                      (ExecutiveResponse.message request)
                                      (conversation_context (chat_history st)) w))
                              Dict.empty)])%list
                  (track_analytics (ExecutiveResponse.executives request)
                     (elapsed_seconds clk) (today clk) (analytics_data st)))
             = (lastn n (chat_history st)
                  ++ [ChatEntry.mk (now_isoformat clk)
                        (ExecutiveResponse.message request)
                        (ExecutiveResponse.executives request)
                        (store_all (task_ids (ExecutiveResponse.executives request))
                           (fst (gather chat_completions_create
                                   (task_ids (ExecutiveResponse.executives request))
                                   (ExecutiveResponse.message request)
                                   (conversation_context (chat_history st)) w))
                           Dict.empty)])%list).
  { intros n. rewrite get_chat_history_positive by lia.
    cbn [chat_history]. apply lastn_snoc. }
  split; [| split].
  - destruct (Pos.to_nat p) as [|n] eqn:Hp; [lia |].
    exists (lastn n (chat_history st)).
    rewrite <- (positive_nat_Z p), Hp. apply Hlast.
  - exists (lastn 9 (chat_history st)). apply (Hlast 9%nat).
  - etransitivity; [exact (Hlast 0%nat) |].
    unfold lastn. rewrite Nat.sub_0_r, skipn_all. reflexivity.
Qed.

(** X8. After a request, the context of the next request ends with
    "User: " and the message of this request. *)
Theorem next_context_ends_with_message :
  forall (request : ExecutiveResponse.t) (clk : clock pyfloat)
         (st : storage pyfloat) (w : world),
    exists before,
      conversation_context (chat_history (stored (request_step request clk st w)))
      = before ++ "User: " ++ ExecutiveResponse.message request.
Proof.
  intros request clk st w.
  rewrite get_executive_responses_run. cbv zeta. cbn [stored chat_history].
  rewrite conversation_context_lastn, (lastn_snoc 2), map_app.
  cbn [map ChatEntry.message]. rewrite join_snoc.
  destruct (map _ (lastn 2 (chat_history st))) as [|a l].
  - exists "". reflexivity.
  - exists (PyStr.join " | " (a :: l) ++ " | ").
    now rewrite !string_app_assoc.
Qed.

Lemma task_ids_idempotent (executives : list string) :
  task_ids (task_ids executives) = task_ids executives.
Proof.
  unfold task_ids. apply filter_all. intros id Hid.
  apply filter_In in Hid. tauto.
Qed.

Lemma task_ids_none (executives : list string) :
  (forall id, In id executives -> Dict.mem id EXECUTIVES = false) ->
  task_ids executives = [].
Proof.
  unfold task_ids. induction executives as [|x r IH]; intros H; simpl.
  - reflexivity.
  - rewrite (H x) by now left. apply IH. intros id Hid. apply H. now right.
Qed.

(** X9. What a request answers depends on the storage only through the
    context: two storages with the same context (whatever their older
    turns and their analytics are) give the same response mapping and
    count and leave the completion service in the same state. *)
Theorem replies_depend_on_context_only :
  forall (request : ExecutiveResponse.t) (clk1 clk2 : clock pyfloat)
         (st1 st2 : storage pyfloat) (w : world),
    conversation_context (chat_history st1) = conversation_context (chat_history st2) ->
    let r1 := request_step request clk1 st1 w in
    let r2 := request_step request clk2 st2 w in
    exists body1 body2,
      reply r1 = Ok200 body1
      /\ reply r2 = Ok200 body2
      /\ ResponseBody.responses body1 = ResponseBody.responses body2
      /\ ResponseBody.executives_consulted body1
         = ResponseBody.executives_consulted body2
      /\ world_after r1 = world_after r2.
Proof.
  intros request clk1 clk2 st1 st2 w Hctx r1 r2. subst r1 r2.
  rewrite !get_executive_responses_run. cbv zeta. cbn [reply world_after].
  rewrite Hctx. eexists; eexists. repeat split.
Qed.

(** X10. A request none of whose ids is registered (the request without
    ids included) calls no completion, so the world stays as it is; it is
    answered with the empty mapping and the count 0, and yet it appends
    its entry to the history, adds 1 to the total, and every id it names
    is counted in the usage mapping. *)
Theorem request_without_registered_id :
  forall (request : ExecutiveResponse.t) (clk : clock pyfloat)
         (st : storage pyfloat) (w : world),
    (forall id, In id (ExecutiveResponse.executives request) ->
                Dict.mem id EXECUTIVES = false) ->
    let r := request_step request clk st w in
    reply r = Ok200 (ResponseBody.mk Dict.empty (now_isoformat clk) 0)
    /\ world_after r = w
    /\ chat_history (stored r)
       = (chat_history st
            ++ [ChatEntry.mk (now_isoformat clk) (ExecutiveResponse.message request)
                             (ExecutiveResponse.executives request) Dict.empty])%list
    /\ Analytics.total_conversations (analytics_data (stored r))
       = Analytics.total_conversations (analytics_data st) + 1
    /\ forall id,
         count_of id (Analytics.executive_usage (analytics_data (stored r)))
         = count_of id (Analytics.executive_usage (analytics_data st))
           + occurrences id (ExecutiveResponse.executives request).
Proof.
  intros request clk st w Hnone r. subst r.
  rewrite get_executive_responses_run. cbv zeta.
  rewrite (task_ids_none _ Hnone).
  cbn [reply world_after stored chat_history analytics_data].
  repeat split. intros id. apply count_of_after_loop.
Qed.


(** *** The calls of the completion service *)

Local Abbreviation observed := (logged chat_completions_create).

Lemma get_executive_response_logged (id message context : string)
    (w : world) (log : list (string * string)) :
  get_executive_response observed id message context (w, log)
  = (fst (get_executive_response chat_completions_create id message context w),
     (snd (get_executive_response chat_completions_create id message context w),
      (log ++ map (fun i => (prompt_for i context, message)) (task_ids [id]))%list)).
Proof.
  pose proof (get_executive_response_cases observed id message context (w, log)) as Hl.
  pose proof (get_executive_response_cases chat_completions_create id message context w)
    as Hp.
  change (task_ids [id]) with (if Dict.mem id EXECUTIVES then [id] else []).
  unfold Dict.mem.
  destruct (Dict.get id EXECUTIVES) as [e|] eqn:He.
  - cbv zeta in Hl, Hp. rewrite Hl, Hp. unfold logged. cbn [fst snd map].
    unfold prompt_for. rewrite He.
    destruct (chat_completions_create (prompt_with_context e context) message w).
    reflexivity.
  - rewrite Hl, Hp. cbn [fst snd map]. now rewrite app_nil_r.
Qed.

Lemma gather_logged (ids : list string) (message context : string) :
  forall (w : world) (log : list (string * string)),
    gather observed ids message context (w, log)
    = (fst (gather chat_completions_create ids message context w),
       (snd (gather chat_completions_create ids message context w),
        (log ++ map (fun i => (prompt_for i context, message)) (task_ids ids))%list)).
Proof.
  induction ids as [|id rest IH]; intros w log.
  - simpl. now rewrite app_nil_r.
  - rewrite !gather_cons, get_executive_response_logged. cbn [fst snd].
    rewrite IH. cbn [fst snd].
    replace (task_ids (id :: rest)) with (task_ids [id] ++ task_ids rest)%list
      by (symmetry; apply (filter_app _ [id] rest)).
    now rewrite map_app, app_assoc.
Qed.


End Requests.

(** ** The notification, continued *)

Lemma exec_names_are_task_names (executives : list string) :
  exec_names executives = map display_name (task_ids executives).
Proof.
  induction executives as [|id rest IH]; [reflexivity |].
  cbn [exec_names]. unfold task_ids. cbn [filter]. fold (task_ids rest).
  unfold Dict.mem. destruct (Dict.get id EXECUTIVES) as [e|] eqn:He.
  - cbn [map]. unfold display_name at 1. now rewrite He, IH.
  - exact IH.
Qed.

(** X13. The notification names exactly the executives the request made
    tasks for: the "Executives Consulted" field is the display names of
    the registered ids of the request, in the order of the request, joined
    by ", " (ids outside [EXECUTIVES] leave no trace, and the field is
    empty when no id is registered).  The "Discussion Topic" field never
    has more than 203 characters. *)
Theorem notification_names_the_tasks :
  forall (message : string) (executives : list string) (now_ts : Z),
    exists names topic,
      Slack.attachments (slack_payload message executives now_ts)
      = [Slack.mk_attachment "good" [names; topic] "Virtual C-Suite Boardroom" now_ts]
      /\ Slack.title names = "Executives Consulted"
      /\ Slack.value names = PyStr.join ", " (map display_name (task_ids executives))
      /\ (task_ids executives = [] -> Slack.value names = "")
      /\ (String.length (Slack.value topic) <= 203)%nat.
Proof.
  intros message executives now_ts. unfold slack_payload.
  eexists; eexists; split; [reflexivity |]. cbn [Slack.title Slack.value].
  split; [reflexivity |]. rewrite exec_names_are_task_names.
  split; [reflexivity |]. split; [intros ->; reflexivity |].
  unfold discussion_topic, PyStr.len.
  destruct (Z.gtb_spec (Z.of_nat (String.length message)) 200).
  - rewrite string_length_app, py_take_length.
    change (String.length "...") with 3%nat. lia.
  - lia.
Qed.

Section Notification.

Variable world : Type.
Variable requests_post : string -> Slack.payload -> world -> post_result * world.
Variable SLACK_WEBHOOK_URL : option string.

(** X14. [send_slack_notification] reports success exactly when the
    webhook URL is set and not empty and the post of the payload is
    answered with status 200.  Without a URL, or with an empty one, it
    returns [False] and posts nothing; an exception of the post, or any
    other status, gives [False] too. *)
Theorem slack_notification_outcome :
  forall (message : string) (executives : list string) (now_ts : Z) (w : world),
    let sent :=
      send_slack_notification requests_post SLACK_WEBHOOK_URL message executives
                              now_ts w in
    (env_set SLACK_WEBHOOK_URL = false -> sent = (false, w))
    /\ (fst sent = true
        <-> exists url,
              SLACK_WEBHOOK_URL = Some url
              /\ PyStr.truthy url = true
              /\ fst (requests_post url (slack_payload message executives now_ts) w)
                 = StatusCode 200)
    /\ (forall url,
          SLACK_WEBHOOK_URL = Some url ->
          PyStr.truthy url = true ->
          snd sent
          = snd (requests_post url (slack_payload message executives now_ts) w)).
Proof.
  intros message executives now_ts w sent. subst sent.
  unfold send_slack_notification, env_set.
  destruct SLACK_WEBHOOK_URL as [url|].
  - destruct (PyStr.truthy url) eqn:Hurl.
    + destruct (requests_post url (slack_payload message executives now_ts) w)
        as [[|status_code] w'] eqn:Hpost; cbn [fst snd].
      * split; [discriminate |]. split.
        -- split; [discriminate |].
           intros (url' & E & _ & Hst). injection E as <-.
           rewrite Hpost in Hst. discriminate.
        -- intros url' E _. injection E as <-. now rewrite Hpost.
      * split; [discriminate |]. split.
        -- split.
           ++ intros Hok. apply Z.eqb_eq in Hok. subst status_code.
              exists url. rewrite Hpost. auto.
           ++ intros (url' & E & _ & Hst). injection E as <-.
              rewrite Hpost in Hst. injection Hst as ->. reflexivity.
        -- intros url' E _. injection E as <-. now rewrite Hpost.
    + split; [reflexivity |]. split.
      * split; [discriminate |].
        intros (url' & E & Ht & _). injection E as <-. congruence.
      * intros url' E Ht. injection E as <-. congruence.
  - split; [reflexivity |]. split.
    + split; [discriminate | intros (url' & E & _); discriminate].
    + intros url' E. discriminate.
Qed.

End Notification.

(** ** The integration endpoints *)

Section IntegrationProperties.

Variable world : Type.
Variable OPENAI_API_KEY : option string.
Variable SLACK_WEBHOOK_URL : option string.
Variable NOTION_API_KEY : option string.
Variable GOOGLE_API_KEY : option string.
Variable TWILIO_ACCOUNT_SID : option string.
Variable TWILIO_AUTH_TOKEN : option string.
Variable requests_post_message :
  string -> string * option string -> world -> post_result * world.
Variable requests_get :
  string -> list (string * string) -> world -> post_result * world.
Variable twilio_accounts_get : string * string -> world -> option string * world.
Variable str_of_exception : integration_exception -> string.

Local Abbreviation slack_send :=
  (send_slack_message SLACK_WEBHOOK_URL requests_post_message str_of_exception).
Local Abbreviation slack_test :=
  (test_slack SLACK_WEBHOOK_URL requests_post_message str_of_exception).

(** How [send_slack_message] ends, case by case. *)
Lemma send_slack_message_cases (message : SlackMessage.t) (w : world) :
  match SLACK_WEBHOOK_URL with
  | Some url =>
      if PyStr.truthy url then
        match requests_post_message url
                (SlackMessage.message message, SlackMessage.channel message) w with
        | (StatusCode status_code, w') =>
            if status_code =? 200
            then slack_send message w = (Ok200 (Success "Message sent to Slack"), w')
            else slack_send message w
                 = (HTTPException 500
                      (str_of_exception
                         (HTTPExceptionRaised status_code "Slack API error")), w')
        | (RequestException, w') =>
            slack_send message w
            = (HTTPException 500 (str_of_exception RequestsError), w')
        end
      else slack_send message w
           = (HTTPException 500
                (str_of_exception
                   (HTTPExceptionRaised 400 "Slack webhook not configured")), w)
  | None =>
      slack_send message w
      = (HTTPException 500
           (str_of_exception
              (HTTPExceptionRaised 400 "Slack webhook not configured")), w)
  end.
Proof.
  unfold send_slack_message, send_slack_message_try.
  destruct SLACK_WEBHOOK_URL as [url|]; [| reflexivity].
  destruct (PyStr.truthy url); [| reflexivity].
  destruct (requests_post_message url _ w) as [[|status_code] w']; [reflexivity |].
  destruct (status_code =? 200); reflexivity.
Qed.

(** X15. [send_slack_message] answers 200 or raises the status 500, and
    nothing else: the 400 it raises for a missing webhook and the Slack
    status it raises for a refused post are both caught by its own
    [except Exception] and come out as 500 with the text of the caught
    exception as detail.  It answers 200 exactly when the webhook is set,
    not empty, and the post is answered with 200; without a webhook
    nothing is posted. *)
Theorem slack_message_failures_are_500 :
  forall (message : SlackMessage.t) (w : world),
    let answer := slack_send message w in
    let body := (SlackMessage.message message, SlackMessage.channel message) in
    (forall status_code detail,
        fst answer = HTTPException status_code detail -> status_code = 500)
    /\ (env_set SLACK_WEBHOOK_URL = false ->
          answer
          = (HTTPException 500
               (str_of_exception
                  (HTTPExceptionRaised 400 "Slack webhook not configured")), w))
    /\ (forall url status_code w',
          SLACK_WEBHOOK_URL = Some url ->
          PyStr.truthy url = true ->
          requests_post_message url body w = (StatusCode status_code, w') ->
          status_code <> 200 ->
          answer
          = (HTTPException 500
               (str_of_exception (HTTPExceptionRaised status_code "Slack API error")),
             w'))
    /\ ((exists result, fst answer = Ok200 result)
        <-> exists url,
              SLACK_WEBHOOK_URL = Some url
              /\ PyStr.truthy url = true
              /\ fst (requests_post_message url body w) = StatusCode 200)
    /\ (forall result,
          fst answer = Ok200 result -> result = Success "Message sent to Slack").
Proof.
  intros message w answer body. subst answer body.
  pose proof (send_slack_message_cases message w) as Hcase.
  unfold env_set.
  destruct SLACK_WEBHOOK_URL as [url|].
  - destruct (PyStr.truthy url) eqn:Hurl.
    + destruct (requests_post_message url _ w) as [[|status_code] w'] eqn:Hpost.
      * rewrite Hcase. cbn [fst]. split; [intros ? ? E; now injection E |].
        split; [discriminate |]. split.
        { intros url' c w'' E _ Hp. injection E as <-. rewrite Hpost in Hp.
          discriminate. }
        split; [| discriminate].
        split; [intros (r & E); discriminate |].
        intros (url' & E & _ & Hst). injection E as <-.
        rewrite Hpost in Hst. discriminate.
      * destruct (Z.eqb_spec status_code 200) as [->|Hne]; rewrite Hcase; cbn [fst].
        -- split; [discriminate |]. split; [discriminate |]. split.
           { intros url' c w'' E _ Hp Hc. injection E as <-. rewrite Hpost in Hp.
             injection Hp as <- <-. congruence. }
           split; [| intros r E; now injection E].
           split; [| eauto]. intros _. exists url. rewrite Hpost. auto.
        -- split; [intros ? ? E; now injection E |]. split; [discriminate |]. split.
           { intros url' c w'' E _ Hp _. injection E as <-. rewrite Hpost in Hp.
             injection Hp as <- <-. reflexivity. }
           split; [| discriminate].
           split; [intros (r & E); discriminate |].
           intros (url' & E & _ & Hst). injection E as <-.
           rewrite Hpost in Hst. injection Hst as Hst. congruence.
    + rewrite Hcase. cbn [fst]. split; [intros ? ? E; now injection E |].
      split; [reflexivity |]. split; [intros url' c w' E; injection E as <-; congruence |].
      split; [| discriminate].
      split; [intros (r & E); discriminate |].
      intros (url' & E & Ht & _). injection E as <-. congruence.
  - rewrite Hcase. cbn [fst]. split; [intros ? ? E; now injection E |].
    split; [reflexivity |]. split; [discriminate |].
    split; [| discriminate].
    split; [intros (r & E); discriminate | intros (url' & E & _); discriminate].
Qed.

(** X16. [test_slack] raises nothing: whatever [send_slack_message]
    raises comes back as a failure whose error is the text of a status 500
    exception.  Without a webhook nothing is posted and the error is the
    text of the 500 that wraps the text of the 400.  The test succeeds
    exactly when the webhook is set, not empty, and the post of the test
    message to the default channel is answered with 200. *)
Theorem test_slack_reports_instead_of_raising :
  forall w : world,
    let probe := slack_test w in
    (env_set SLACK_WEBHOOK_URL = false ->
       probe
       = (Failure
            (str_of_exception
               (HTTPExceptionRaised 500
                  (str_of_exception
                     (HTTPExceptionRaised 400 "Slack webhook not configured")))),
          w))
    /\ (forall error,
          fst probe = Failure error ->
          exists detail, error = str_of_exception (HTTPExceptionRaised 500 detail))
    /\ (succeeded (fst probe) = true
        <-> exists url,
              SLACK_WEBHOOK_URL = Some url
              /\ PyStr.truthy url = true
              /\ fst (requests_post_message url
                        (SlackMessage.message test_message,
                         Some "#executive-insights") w)
                 = StatusCode 200).
Proof.
  intros w probe. subst probe. unfold test_slack.
  pose proof (send_slack_message_cases test_message w) as Hcase.
  change (SlackMessage.channel test_message) with (Some "#executive-insights") in Hcase.
  unfold env_set.
  destruct SLACK_WEBHOOK_URL as [url|].
  - destruct (PyStr.truthy url) eqn:Hurl.
    + destruct (requests_post_message url _ w) as [[|status_code] w'] eqn:Hpost.
      * rewrite Hcase. cbn [fst succeeded]. split; [discriminate |].
        split; [intros error E; injection E as <-; eauto |].
        split; [discriminate |].
        intros (url' & E & _ & Hst). injection E as <-.
        rewrite Hpost in Hst. discriminate.
      * destruct (Z.eqb_spec status_code 200) as [->|Hne]; rewrite Hcase;
          cbn [fst succeeded].
        -- split; [discriminate |]. split; [discriminate |].
           split; [intros _; exists url; rewrite Hpost; auto | reflexivity].
        -- split; [discriminate |].
           split; [intros error E; injection E as <-; eauto |].
           split; [discriminate |].
           intros (url' & E & _ & Hst). injection E as <-.
           rewrite Hpost in Hst. injection Hst as Hst. congruence.
    + rewrite Hcase. cbn [fst succeeded]. split; [reflexivity |].
      split; [intros error E; injection E as <-; eauto |].
      split; [discriminate |].
      intros (url' & E & Ht & _). injection E as <-. congruence.
  - rewrite Hcase. cbn [fst succeeded]. split; [reflexivity |].
    split; [intros error E; injection E as <-; eauto |].
    split; [discriminate | intros (url' & E & _); discriminate].
Qed.

(** X17. The flags of [health_check] and the test endpoints agree: a
    service that [health_check] reports as not configured (its variable
    unset or empty; for Twilio, either of the two) makes its test endpoint
    fail with the fixed text, without any request leaving the process; a
    test endpoint that succeeds belongs to a service reported as
    configured; for Google the two say the same. *)
Theorem unconfigured_service_fails_its_test :
  forall (pyfloat : Type) (now_isoformat : string) (st : storage pyfloat) (w : world),
    let up :=
      Health.services_up
        (health_check OPENAI_API_KEY SLACK_WEBHOOK_URL NOTION_API_KEY GOOGLE_API_KEY
                      TWILIO_ACCOUNT_SID TWILIO_AUTH_TOKEN now_isoformat st) in
    let notion := test_notion NOTION_API_KEY requests_get str_of_exception w in
    let twilio :=
      test_twilio TWILIO_ACCOUNT_SID TWILIO_AUTH_TOKEN twilio_accounts_get
                  str_of_exception w in
    (Health.notion up = false ->
       notion = (Failure "Notion API key not configured", w))
    /\ (succeeded (fst notion) = true -> Health.notion up = true)
    /\ (Health.twilio up = false -> twilio = (Failure "Twilio not configured", w))
    /\ (succeeded (fst twilio) = true -> Health.twilio up = true)
    /\ Health.twilio up = env_set TWILIO_ACCOUNT_SID && env_set TWILIO_AUTH_TOKEN
    /\ Health.google up = succeeded (test_google GOOGLE_API_KEY)
    /\ (Health.slack up = false -> succeeded (fst (slack_test w)) = false
                                   /\ snd (slack_test w) = w).
Proof.
  intros pyfloat now_isoformat st w up notion twilio. subst up notion twilio.
  unfold health_check, test_notion, test_twilio, test_google, twilio_client, env_set.
  cbn [Health.services_up Health.notion Health.twilio Health.google Health.slack].
  split; [| split; [| split; [| split; [| split; [| split]]]]].
  - destruct NOTION_API_KEY as [key|]; [| reflexivity].
    destruct (PyStr.truthy key); [discriminate | reflexivity].
  - destruct NOTION_API_KEY as [key|]; [| discriminate].
    destruct (PyStr.truthy key); [reflexivity | discriminate].
  - destruct TWILIO_ACCOUNT_SID as [sid|], TWILIO_AUTH_TOKEN as [token|];
      try reflexivity.
    destruct (PyStr.truthy sid && PyStr.truthy token); [discriminate | reflexivity].
  - destruct TWILIO_ACCOUNT_SID as [sid|], TWILIO_AUTH_TOKEN as [token|];
      try discriminate.
    destruct (PyStr.truthy sid && PyStr.truthy token); [reflexivity | discriminate].
  - destruct TWILIO_ACCOUNT_SID as [sid|], TWILIO_AUTH_TOKEN as [token|];
      try reflexivity.
    + destruct (PyStr.truthy sid && PyStr.truthy token); reflexivity.
    + now rewrite andb_false_r.
  - destruct GOOGLE_API_KEY as [key|]; [| reflexivity].
    destruct (PyStr.truthy key); reflexivity.
  - intros Hdown. unfold test_slack.
    pose proof (send_slack_message_cases test_message w) as Hcase.
    destruct SLACK_WEBHOOK_URL as [url|].
    + destruct (PyStr.truthy url); [discriminate |]. rewrite Hcase. split; reflexivity.
    + rewrite Hcase. split; reflexivity.
Qed.

End IntegrationProperties.

(** ** What the summaries say of a reachable storage *)

Section Summaries.

Variable world : Type.
Variable chat_completions_create : string -> string -> world -> completion * world.
Variable pyfloat : Type.
Variable float_sum : list pyfloat -> pyfloat.
Variable float_div : pyfloat -> Z -> pyfloat.
Variable float_round2 : pyfloat -> pyfloat.

(** X18. In a reachable storage the most popular executive is the id the
    requests of the history name most often: it is named at least once,
    no id is named more often, and it need not be registered.  There is
    none exactly when no request of the history names any id. *)
Theorem most_popular_is_named_most :
  forall st : storage pyfloat,
    reachable chat_completions_create st ->
    match AnalyticsBody.most_popular_executive
            (get_analytics float_sum float_div float_round2 st) with
    | Some id =>
        0 < named_in_history id (chat_history st)
        /\ forall other,
             named_in_history other (chat_history st)
             <= named_in_history id (chat_history st)
    | None => forall e, In e (chat_history st) -> ChatEntry.executives e = []
    end.
Proof.
  intros st Hst. unfold get_analytics.
  cbn [AnalyticsBody.most_popular_executive].
  pose proof (reachable_usage_named Hst) as Hnamed.
  destruct (reachable_usage Hst) as [_ Hdup].
  destruct (Analytics.executive_usage (analytics_data st)) as [|first rest] eqn:Husage.
  - cbn [Dict.truthy]. intros e He.
    destruct (ChatEntry.executives e) as [|id ids] eqn:Hids; [reflexivity |].
    exfalso. specialize (Hnamed id). simpl in Hnamed.
    assert (Hpos : 0 < named_in_history id (chat_history st)).
    { apply named_in_history_positive. exists e. rewrite Hids. simpl. auto. }
    destruct (Z.eqb_spec (named_in_history id (chat_history st)) 0);
      [lia | discriminate].
  - cbn [Dict.truthy Dict.items PyList.max_by option_map].
    destruct (max_from_first_greatest (@snd string Z) rest first)
      as (before & after & Hsplit & Hlt & Hle).
    destruct (PyList.max_from (@snd string Z) first rest) as [id n].
    cbn [fst snd] in *.
    assert (Hget : Dict.get id (first :: rest) = Some n).
    { apply dict_get_In; [exact Hdup |]. rewrite Hsplit. apply in_elt. }
    pose proof (Hnamed id) as Hid. rewrite Hget in Hid.
    pose proof (named_in_history_nonneg id (chat_history st)) as Hnn.
    destruct (Z.eqb_spec (named_in_history id (chat_history st)) 0) as [E|E];
      [discriminate |].
    injection Hid as ->. split; [lia |].
    intros other. pose proof (Hnamed other) as Hother.
    destruct (Z.eqb_spec (named_in_history other (chat_history st)) 0) as [E'|E'];
      [lia |].
    apply dict_In_get in Hother. rewrite Hsplit in Hother.
    apply in_app_or in Hother. destruct Hother as [Hin|[Heq|Hin]].
    + specialize (Hlt _ Hin). simpl in Hlt. lia.
    + injection Heq as _ Heq. lia.
    + exact (Hle _ Hin).
Qed.

(** X19. [health_check] and [get_analytics] report the same total, and in
    a reachable storage it is the number of turns [get_chat_history] can
    return at most, the length of the history; [health_check] counts the
    executives [get_executives] lists. *)
Theorem summaries_agree_on_total :
  forall (st : storage pyfloat) (now_isoformat : string)
         (openai slack notion google sid token : option string),
    reachable chat_completions_create st ->
    let health := health_check openai slack notion google sid token now_isoformat st in
    let analytics := get_analytics float_sum float_div float_round2 st in
    Health.total_conversations health = AnalyticsBody.total_conversations analytics
    /\ Health.total_conversations health = Z.of_nat (List.length (chat_history st))
    /\ (forall limit,
          Z.of_nat (List.length (get_chat_history limit st))
          <= Health.total_conversations health)
    /\ Health.executives_loaded health
       = Z.of_nat (List.length (Dict.keys get_executives)).
Proof.
  intros st now_isoformat openai slack notion google sid token Hst health analytics.
  subst health analytics. unfold health_check, get_analytics.
  cbn [Health.total_conversations AnalyticsBody.total_conversations
       Health.executives_loaded].
  destruct (reachable_counters Hst) as (Ht & _ & _).
  split; [reflexivity |]. split; [exact Ht |]. split.
  - intros limit. rewrite Ht. unfold get_chat_history, PyList.slice_from.
    rewrite length_skipn. lia.
  - unfold get_executives, Dict.len, Dict.keys. now rewrite length_map.
Qed.

End Summaries.

(** ** The generated text *)

Lemma lstrip_first (s : string) : not_space (first_char (PyStr.lstrip s)) = true.
Proof.
  induction s as [|c r IH]; simpl; [reflexivity |].
  destruct (PyStr.isspace c) eqn:E; [exact IH |]. simpl. now rewrite E.
Qed.

Lemma lstrip_fixed (s : string) :
  not_space (first_char s) = true -> PyStr.lstrip s = s.
Proof.
  destruct s as [|c r]; simpl; [reflexivity |].
  destruct (PyStr.isspace c); [discriminate | reflexivity].
Qed.

Lemma rstrip_last (s : string) : not_space (last_char (PyStr.rstrip s)) = true.
Proof.
  induction s as [|c r IH]; simpl; [reflexivity |].
  destruct (PyStr.rstrip r) as [|a r'] eqn:E.
  - destruct (PyStr.isspace c) eqn:Ec; simpl; [reflexivity | now rewrite Ec].
  - exact IH.
Qed.

Lemma rstrip_first (s : string) :
  not_space (first_char s) = true -> not_space (first_char (PyStr.rstrip s)) = true.
Proof.
  destruct s as [|c r]; [reflexivity |]. intros Hc. simpl in Hc.
  simpl PyStr.rstrip. destruct (PyStr.rstrip r).
  - destruct (PyStr.isspace c) eqn:E; [discriminate |]. simpl. now rewrite E.
  - simpl. exact Hc.
Qed.

Lemma rstrip_fixed (s : string) :
  not_space (last_char s) = true -> PyStr.rstrip s = s.
Proof.
  induction s as [|c r IH]; [reflexivity |].
  destruct r as [|a r'].
  - simpl. destruct (PyStr.isspace c); [discriminate | reflexivity].
  - intros Hlast. change (last_char (String c (String a r'))) with
      (last_char (String a r')) in Hlast.
    change (PyStr.rstrip (String c (String a r')))
      with (match PyStr.rstrip (String a r') with
            | EmptyString => if PyStr.isspace c then "" else String c ""
            | r0 => String c r0
            end).
    now rewrite (IH Hlast).
Qed.

(** X20. A generated text is stored trimmed: the text
    [get_executive_response] takes from a completion neither starts nor
    ends with white space, and stripping it again changes nothing. *)
Theorem generated_text_is_trimmed :
  forall (c : completion) (text : string),
    generated_text c = Some text ->
    not_space (first_char text) = true
    /\ not_space (last_char text) = true
    /\ PyStr.strip text = text.
Proof.
  intros c text Hgen.
  destruct c as [|[|[content|] choices]]; try discriminate.
  injection Hgen as <-. unfold PyStr.strip.
  pose proof (rstrip_first _ (lstrip_first content)) as Hfirst.
  pose proof (rstrip_last (PyStr.lstrip content)) as Hlast.
  split; [exact Hfirst |]. split; [exact Hlast |].
  rewrite (lstrip_fixed _ Hfirst). now apply rstrip_fixed.
Qed.

(** ** The further properties at work in the small world *)

Lemma after_calls_reachable :
  reachable Demo.chat_completions_create Scenario.after_calls.
Proof.
  unfold Scenario.after_calls. apply serve_reachable. apply reachable_initial.
Qed.

(** X1 after the two requests of the scenario. *)
Lemma storage_counters_agree_witness :
  reachable Demo.chat_completions_create Scenario.after_calls
  /\ Analytics.total_conversations (analytics_data Scenario.after_calls)
     = Z.of_nat (List.length (chat_history Scenario.after_calls))
  /\ List.length (Analytics.response_times (analytics_data Scenario.after_calls))
     = List.length (chat_history Scenario.after_calls)
  /\ dict_sum (Analytics.daily_stats (analytics_data Scenario.after_calls))
     = Z.of_nat (List.length (chat_history Scenario.after_calls)).
Proof.
  split; [exact after_calls_reachable |].
  exact (storage_counters_agree after_calls_reachable).
Defined.

(** X2 after the two requests of the scenario. *)
Lemma usage_counts_match_history_witness :
  reachable Demo.chat_completions_create Scenario.after_calls
  /\ (forall id,
        count_of id (Analytics.executive_usage (analytics_data Scenario.after_calls))
        = named_in_history id (chat_history Scenario.after_calls))
  /\ (forall id,
        Dict.mem id (Analytics.executive_usage (analytics_data Scenario.after_calls))
        = true
        <-> exists e,
              In e (chat_history Scenario.after_calls)
              /\ In id (ChatEntry.executives e))
  /\ dict_sum (Analytics.executive_usage (analytics_data Scenario.after_calls))
     = Z.of_nat
         (List.length (flat_map ChatEntry.executives (chat_history Scenario.after_calls))).
Proof.
  split; [exact after_calls_reachable |].
  exact (usage_counts_match_history after_calls_reachable).
Defined.

(** X3 after the two requests of the scenario. *)
Lemma history_entries_are_well_formed_witness :
  reachable Demo.chat_completions_create Scenario.after_calls
  /\ Forall
       (fun e =>
          Dict.keys (ChatEntry.responses e)
          = first_occurrences (task_ids (ChatEntry.executives e))
          /\ NoDup (Dict.keys (ChatEntry.responses e))
          /\ forall id,
               In id (Dict.keys (ChatEntry.responses e))
               <-> In id (ChatEntry.executives e) /\ Dict.mem id EXECUTIVES = true)
       (chat_history Scenario.after_calls).
Proof.
  split; [exact after_calls_reachable |].
  exact (history_entries_are_well_formed after_calls_reachable).
Defined.

(** X9 at two storages with an empty history and different analytics. *)
Lemma replies_depend_on_context_only_witness :
  conversation_context (chat_history Demo.storage0)
  = conversation_context (chat_history Scenario.other_storage)
  /\ exists body1 body2,
       reply (get_executive_responses Demo.chat_completions_create Demo.board_request
                Demo.clk Demo.storage0 0%nat)
       = Ok200 body1
       /\ reply (get_executive_responses Demo.chat_completions_create Demo.board_request
                   Scenario.later Scenario.other_storage 0%nat)
          = Ok200 body2
       /\ ResponseBody.responses body1 = ResponseBody.responses body2
       /\ ResponseBody.executives_consulted body1
          = ResponseBody.executives_consulted body2
       /\ world_after
            (get_executive_responses Demo.chat_completions_create Demo.board_request
               Demo.clk Demo.storage0 0%nat)
          = world_after
              (get_executive_responses Demo.chat_completions_create Demo.board_request
                 Scenario.later Scenario.other_storage 0%nat).
Proof.
  split; [reflexivity |].
  apply (@replies_depend_on_context_only Demo.world Demo.chat_completions_create
           Demo.pyfloat Demo.board_request Demo.clk Scenario.later Demo.storage0
           Scenario.other_storage 0%nat).
  reflexivity.
Defined.

(** X10 at the request that names two unregistered ids. *)
Lemma request_without_registered_id_witness :
  (forall id, In id (ExecutiveResponse.executives Scenario.nobody_request) ->
              Dict.mem id EXECUTIVES = false)
  /\ reply (Demo.orchestrate Scenario.nobody_request Demo.storage0 5%nat)
     = Ok200 (ResponseBody.mk Dict.empty (now_isoformat Demo.clk) 0)
  /\ world_after (Demo.orchestrate Scenario.nobody_request Demo.storage0 5%nat) = 5%nat
  /\ chat_history (stored (Demo.orchestrate Scenario.nobody_request Demo.storage0 5%nat))
     = (chat_history Demo.storage0
          ++ [ChatEntry.mk (now_isoformat Demo.clk)
                (ExecutiveResponse.message Scenario.nobody_request)
                (ExecutiveResponse.executives Scenario.nobody_request) Dict.empty])%list
  /\ Analytics.total_conversations
       (analytics_data
          (stored (Demo.orchestrate Scenario.nobody_request Demo.storage0 5%nat)))
     = Analytics.total_conversations (analytics_data Demo.storage0) + 1
  /\ forall id,
       count_of id
         (Analytics.executive_usage
            (analytics_data
               (stored (Demo.orchestrate Scenario.nobody_request Demo.storage0 5%nat))))
       = count_of id (Analytics.executive_usage (analytics_data Demo.storage0))
         + occurrences id (ExecutiveResponse.executives Scenario.nobody_request).
Proof.
  assert (Hnone : forall id,
             In id (ExecutiveResponse.executives Scenario.nobody_request) ->
             Dict.mem id EXECUTIVES = false).
  { intros id [E|[E|[]]]; rewrite <- E; reflexivity. }
  split; [exact Hnone |].
  exact (@request_without_registered_id Demo.world Demo.chat_completions_create
           Demo.pyfloat Scenario.nobody_request Demo.clk Demo.storage0 5%nat Hnone).
Defined.

(** X18 after the two requests of the scenario: "xander", named twice. *)
Lemma most_popular_is_named_most_witness :
  reachable Demo.chat_completions_create Scenario.after_calls
  /\ AnalyticsBody.most_popular_executive
       (get_analytics Demo.float_sum Demo.float_div Demo.float_round2
                      Scenario.after_calls)
     = Some "xander"
  /\ 0 < named_in_history "xander" (chat_history Scenario.after_calls)
  /\ forall other,
       named_in_history other (chat_history Scenario.after_calls)
       <= named_in_history "xander" (chat_history Scenario.after_calls).
Proof.
  split; [exact after_calls_reachable |]. split; [reflexivity |].
  exact (@most_popular_is_named_most Demo.world Demo.chat_completions_create
           Demo.pyfloat Demo.float_sum Demo.float_div Demo.float_round2
           Scenario.after_calls after_calls_reachable).
Defined.

(** X19 after the two requests of the scenario, with no variable set. *)
Lemma summaries_agree_on_total_witness :
  reachable Demo.chat_completions_create Scenario.after_calls
  /\ Health.total_conversations
       (health_check None None None None None None "2024-05-03T08:15:00.000000"
                     Scenario.after_calls)
     = 2.
Proof.
  split; [exact after_calls_reachable |].
  destruct (@summaries_agree_on_total Demo.world Demo.chat_completions_create
              Demo.pyfloat Demo.float_sum Demo.float_div Demo.float_round2
              Scenario.after_calls "2024-05-03T08:15:00.000000"
              None None None None None None after_calls_reachable)
    as (_ & Htotal & _).
  exact Htotal.
Defined.

(** X20 at a completion with blanks around its content. *)
Lemma generated_text_is_trimmed_witness :
  generated_text Scenario.padded_completion = Some "Noted: hi"
  /\ not_space (first_char "Noted: hi") = true
  /\ not_space (last_char "Noted: hi") = true
  /\ PyStr.strip "Noted: hi" = "Noted: hi".
Proof.
  split; [reflexivity |].
  exact (@generated_text_is_trimmed Scenario.padded_completion "Noted: hi" eq_refl).
Defined.
